(** * transaction-consumer: a shallow embedding of the ingestion pipeline

    The development follows the Go packages of the repository:

    - [golang]        the fragments of the Go runtime the code relies on
                      (error values and [errors.Is], panics, [time.Date],
                      float64 to int conversion, decoded JSON values);
    - [logger]        the leveled diagnostics sink;
    - [entities]      [Transaction] and [IsValid];
    - [repositories]  the [TransactionRepository] interface;
    - [runtime]       the state the program threads through its calls and the
                      monad in which the embedded functions are written;
    - [usecases]      [ProcessTransaction];
    - [postgres]      the GORM-backed repository over a table with a primary
                      key and a unique index;
    - [deliveries]    the Kafka message handler and its translation functions;
    - [consumer]      the fetch / handle / commit loop.

    The theorems come after the definitions, grouped by function. *)

From Stdlib Require Import String ZArith List Bool Lia Floats DecimalString.
Import ListNotations.

Local Open Scope string_scope.
Local Open Scope Z_scope.

(* ===================================================================== *)
(** ** Go runtime fragments *)
(* ===================================================================== *)

Module golang.

(** Go [error] values, as far as the program builds or inspects them.
    [ErrWrap msg cause] is [fmt.Errorf(msg + ": %w", cause)]; [ErrNew msg] is an
    error without a cause ([fmt.Errorf] without [%w], [errors.New]).  The
    remaining constructors are sentinels of libraries the program talks to:
    [context.Canceled], [context.DeadlineExceeded], [sql.ErrConnDone],
    [gorm.ErrRecordNotFound] and the PostgreSQL unique-violation error
    (SQLSTATE 23505) carrying the name of the violated constraint. *)
Inductive error : Type :=
| ErrCanceled
| ErrDeadlineExceeded
| ErrConnDone
| ErrRecordNotFound
| ErrUniqueViolation (constraint : string)
| ErrNew (msg : string)
| ErrWrap (msg : string) (cause : error).

Definition error_eq_dec (a b : error) : {a = b} + {a <> b}.
Proof. decide equality; apply string_dec. Defined.

(** [errors.Is(err, target)] for a sentinel [target]: [err] or one of the errors
    it wraps is [target]. *)
Fixpoint errors_Is (err target : error) : bool :=
  if error_eq_dec err target then true
  else match err with
       | ErrWrap _ cause => errors_Is cause target
       | _ => false
       end.

(** How a Go call ends: it returns its results, or it panics and unwinds. *)
Inductive Completion (A : Type) : Type :=
| Returns (a : A)
| Panics (v : string).
Arguments Returns {A} a.
Arguments Panics {A} v.

(** An instant: seconds since the Unix epoch and nanoseconds within the
    second, in UTC. *)
Record Time : Type := mkTime { unixSec : Z; nanos : Z }.

(** The zero [time.Time{}]: January 1, year 1, 00:00:00 UTC. *)
Definition TimeZero : Time := mkTime (-62135596800) 0.

(** [t.IsZero()]. *)
Definition time_IsZero (t : Time) : bool :=
  (unixSec t =? unixSec TimeZero) && (nanos t =? nanos TimeZero).

(** Days from 1970-01-01 to the first day of month [m] of year [y], for
    [1 <= m <= 12], in the proleptic Gregorian calendar. *)
Definition days_from_civil (y m : Z) : Z :=
  let y' := if m <=? 2 then y - 1 else y in
  let era := y' / 400 in
  let yoe := y' - era * 400 in
  let mp := (m + 9) mod 12 in
  let doy := (153 * mp + 2) / 5 in
  let doe := yoe * 365 + yoe / 4 - yoe / 100 + doy in
  era * 146097 + doe - 719468.

(** [time.Date(year, month, day, hour, min, sec, nsec, time.UTC)].  Values out
    of their usual range are normalised by carrying into the next unit, which
    is what the sums below do.  The sums are taken in the integers; Go
    takes them in 64 bits, which is the same as long as none overflows. *)
Definition time_Date (year month day hour min sec nsec : Z) : Time :=
  let m0 := month - 1 in
  let y := year + m0 / 12 in
  let m := m0 mod 12 + 1 in
  let days := days_from_civil y m + (day - 1) in
  let s := days * 86400 + hour * 3600 + min * 60 + sec + nsec / 1000000000 in
  mkTime s (nsec mod 1000000000).

Definition minInt64 : Z := - 2 ^ 63.
Definition maxInt64 : Z := 2 ^ 63 - 1.

(** The conversion [int(f)] of a float64: the fraction is discarded.  For a
    value that does not fit (NaN and the infinities included) the Go
    specification leaves the result to the implementation; amd64 yields the
    smallest int64, which is what is modelled. *)
Definition float64_to_int (f : float) : Z :=
  match Prim2SF f with
  | S754_zero _ => 0
  | S754_finite s m e =>
      let mag := if 0 <=? e then Z.pos m * 2 ^ e else Z.pos m / 2 ^ (- e) in
      let v := if s then - mag else mag in
      if (minInt64 <=? v) && (v <=? maxInt64) then v else minInt64
  | S754_infinity _ => minInt64
  | S754_nan => minInt64
  end.

(** A value decoded by [encoding/json] into an [interface{}]: a JSON number
    becomes a float64, a string a Go string, and so on. *)
#[warnings="-register-all"] Inductive JSON : Type :=
| JNull
| JBool (b : bool)
| JNumber (f : float)
| JString (s : string)
| JArray (elems : list JSON)
| JObject (members : list (string * JSON)).

(** The type assertion [v.(float64)] in its one-result form: it panics unless
    the dynamic type of [v] is float64. *)
Definition assert_float64 (v : JSON) : Completion float :=
  match v with
  | JNumber f => Returns f
  | JNull => Panics "interface conversion: interface {} is nil, not float64"
  | JBool _ => Panics "interface conversion: interface {} is bool, not float64"
  | JString _ => Panics "interface conversion: interface {} is string, not float64"
  | JArray _ => Panics "interface conversion: interface {} is []interface {}, not float64"
  | JObject _ =>
      Panics "interface conversion: interface {} is map[string]interface {}, not float64"
  end.

End golang.
Export golang.

(* ===================================================================== *)
(** ** pkg/logger *)
(* ===================================================================== *)

Module logger.

Inductive Level : Type := DEBUG | INFO | WARN | ERROR.

Definition Level_eqb (a b : Level) : bool :=
  match a, b with
  | DEBUG, DEBUG | INFO, INFO | WARN, WARN | ERROR, ERROR => true
  | _, _ => false
  end.

(** One emitted diagnostic: its level and message.  The key/value arguments
    do not influence control flow and are not recorded. *)
Record LogEntry : Type := mkLog { level : Level; message : string }.

Definition is_warning (e : LogEntry) : bool := Level_eqb (level e) WARN.

End logger.
Export logger.

(* ===================================================================== *)
(** ** internal/domain/entities *)
(* ===================================================================== *)

Module entities.

Definition TransactionType := string.
Definition TransactionTypeTopup : TransactionType := "TOPUP".
Definition TransactionTypePayment : TransactionType := "PAYMENT".
Definition TransactionTypeRefund : TransactionType := "REFUND".
Definition TransactionTypeTransfer : TransactionType := "TRANSFER".

Definition TransactionStatus := string.
Definition TransactionStatusPending : TransactionStatus := "PENDING".
Definition TransactionStatusSuccess : TransactionStatus := "SUCCESS".
Definition TransactionStatusFailed : TransactionStatus := "FAILED".
Definition TransactionStatusCancelled : TransactionStatus := "CANCELLED".

Definition PaymentMethod := string.

(** The struct [Transaction].  A pointer field ([*string]) is an [option]:
    [None] is the nil pointer.  [UserID] is an int64. *)
Record Transaction : Type := mkTransaction {
  ID : string;
  UserID : Z;
  AccountID : string;
  TransactionID : string;
  TransactionType_ : TransactionType;
  TransactionStatus_ : TransactionStatus;
  Amount : float;
  BalanceBefore : float;
  BalanceAfter : float;
  Currency : string;
  Description : option string;
  ExternalReference : option string;
  PaymentMethod_ : option PaymentMethod;
  Metadata : option string;
  IsAccessibleFromExternal : bool;
  CreatedAt : Time;
  UpdatedAt : Time
}.

(** [IsValid validates the transaction entity].  The comparison of [Amount]
    is the float64 one: it is false for NaN. *)
Definition IsValid (t : Transaction) : bool :=
  (0 <? UserID t) &&
  negb (AccountID t =? "")%string &&
  negb (TransactionID t =? "")%string &&
  negb (TransactionType_ t =? "")%string &&
  (0 <? Amount t)%float.

(** The assignment [t.ID = id]. *)
Definition set_ID (t : Transaction) (id : string) : Transaction :=
  mkTransaction id (UserID t) (AccountID t) (TransactionID t)
    (TransactionType_ t) (TransactionStatus_ t) (Amount t) (BalanceBefore t)
    (BalanceAfter t) (Currency t) (Description t) (ExternalReference t)
    (PaymentMethod_ t) (Metadata t) (IsAccessibleFromExternal t) (CreatedAt t)
    (UpdatedAt t).

End entities.
Export entities.

(* ===================================================================== *)
(** ** internal/domain/repositories *)
(* ===================================================================== *)

Module repositories.

(** The interface [TransactionRepository], over the state [S] of whatever
    implements it.  A method takes the state and gives its results and the
    new state.  [Create] receives a pointer: the record it returns is what the
    pointer refers to once the call is over. *)
Class TransactionRepository (S : Type) : Type := {
  Create : Transaction -> S -> (Transaction * option error) * S;
  GetByTransactionID : string -> S -> (option Transaction * option error) * S;
  Exists : string -> S -> (bool * option error) * S
}.

(** A method invocation, recorded in the order the program makes them. *)
Inductive RepoCall : Type :=
| CallCreate (t : Transaction)
| CallGetByTransactionID (transactionID : string)
| CallExists (transactionID : string).

Definition is_create (c : RepoCall) : bool :=
  match c with CallCreate _ => true | _ => false end.

Definition is_exists (c : RepoCall) : bool :=
  match c with CallExists _ => true | _ => false end.

End repositories.
Import repositories.

(* ===================================================================== *)
(** ** The threaded state and its monad *)
(* ===================================================================== *)

Module runtime.

(** What the program's calls read and change: the state [store] behind the
    repository, the diagnostics emitted so far ([logs], oldest first), the
    repository methods invoked so far ([calls], oldest first), and the wall
    clock: [wall k] is what the [k]-th reading of [time.Now().UTC()] yields
    and [ticks] counts the readings made. *)
Record World (S : Type) : Type := mkWorld {
  store : S;
  logs : list LogEntry;
  calls : list RepoCall;
  wall : nat -> Time;
  ticks : nat
}.
Arguments mkWorld {S}.
Arguments store {S}.
Arguments logs {S}.
Arguments calls {S}.
Arguments wall {S}.
Arguments ticks {S}.

(** A Go call with results of type [A]: it runs from a world to a completion
    and a world. *)
Definition Go (S A : Type) : Type := World S -> Completion A * World S.

Definition ret {S A} (a : A) : Go S A := fun w => (Returns a, w).

Definition bind {S A B} (m : Go S A) (k : A -> Go S B) : Go S B :=
  fun w =>
    match m w with
    | (Returns a, w') => k a w'
    | (Panics v, w') => (Panics v, w')
    end.

Definition panic {S A} (v : string) : Go S A := fun w => (Panics v, w).

(** A pure step that may panic. *)
Definition lift {S A} (c : Completion A) : Go S A := fun w => (c, w).

(** [logger.Debug], [Info], [Warn] and [Error]. *)
Definition emit {S} (l : Level) (msg : string) : Go S unit :=
  fun w =>
    (Returns tt,
     mkWorld (store w) (logs w ++ [mkLog l msg]) (calls w) (wall w) (ticks w)).

(** [time.Now().UTC()]. *)
Definition time_Now {S} : Go S Time :=
  fun w =>
    (Returns (wall w (ticks w)),
     mkWorld (store w) (logs w) (calls w) (wall w) (Nat.succ (ticks w))).

(** An invocation of a repository method: it is recorded, then run on the
    store. *)
Definition invoke {S A} (c : RepoCall) (method : S -> A * S) : Go S A :=
  fun w =>
    let (a, s') := method (store w) in
    (Returns a, mkWorld s' (logs w) (calls w ++ [c]) (wall w) (ticks w)).

Declare Scope go_scope.
Delimit Scope go_scope with go.
Notation "x <- c ;; k" := (bind c (fun x => k))
  (at level 61, c at next level, right associativity) : go_scope.
Notation "' p <- c ;; k" := (bind c (fun x => let 'p := x in k))
  (at level 61, p pattern, c at next level, right associativity) : go_scope.
Notation "c ;;; k" := (bind c (fun _ => k))
  (at level 61, right associativity) : go_scope.

End runtime.
Import runtime.

(* ===================================================================== *)
(** ** internal/usecases *)
(* ===================================================================== *)

Module usecases.

Section UseCase.

Context {S : Type} {transactionRepo : TransactionRepository S}.

Local Open Scope go_scope.

(** The domain consistency check of [ProcessTransaction], lines 44-48: a
    failed transaction whose balance moved is flagged.  [!=] on float64 is
    the negation of IEEE equality. *)
Definition checkFailedBalance (transaction : Transaction) : Go S unit :=
  if (TransactionStatus_ transaction =? TransactionStatusFailed)%string then
    if negb (BalanceBefore transaction =? BalanceAfter transaction)%float then
      emit WARN "Failed transaction has balance change"
    else ret tt
  else ret tt.

(** [ProcessTransaction].  The result is the record behind the pointer the
    caller passed, as the call leaves it, and the returned error ([None] is
    nil). *)
Definition ProcessTransaction (transaction : Transaction)
  : Go S (Transaction * option error) :=
  if negb (IsValid transaction) then
    ret (transaction, Some (ErrNew "invalid transaction data"))
  else
    '(exists_, err) <- invoke (CallExists (TransactionID transaction))
                              (Exists (TransactionID transaction)) ;;
    match err with
    | Some e =>
        emit ERROR "Failed to check transaction existence" ;;;
        ret (transaction, Some (ErrWrap "failed to check transaction existence" e))
    | None =>
        if exists_ : bool then
          emit INFO "Transaction already exists, skipping" ;;;
          ret (transaction, None)
        else
          checkFailedBalance transaction ;;;
          '(transaction', err) <- invoke (CallCreate transaction)
                                         (Create transaction) ;;
          match err with
          | Some e =>
              emit ERROR "Failed to create transaction" ;;;
              ret (transaction', Some (ErrWrap "failed to create transaction" e))
          | None =>
              emit INFO "Transaction processed successfully" ;;;
              ret (transaction', None)
          end
    end.

End UseCase.

(** The four outcomes the specification names. *)
Inductive Outcome : Type := Written | Skipped | Rejected | Failed.

(** How a finished call of [ProcessTransaction] reads as an outcome, from the
    error it returned and the repository methods it invoked ([made], the calls
    of this run): nil after a create is Written, nil without one is Skipped,
    the validation error is Rejected, any other error is Failed. *)
Definition outcome_of (err : option error) (made : list RepoCall) : Outcome :=
  match err with
  | None => if existsb is_create made then Written else Skipped
  | Some e =>
      if error_eq_dec e (ErrNew "invalid transaction data") then Rejected
      else Failed
  end.

End usecases.
Import usecases.

(* ===================================================================== *)
(** ** internal/infrastructures/database/postgres *)
(* ===================================================================== *)

Module postgres.

(** The database model [TransactionModel], a row of the table
    [historical_transactions].  Its GORM tags make [ID] the primary key, with
    the default [gen_random_uuid()], and put a unique index on
    [TransactionID]. *)
Record TransactionModel : Type := mkModel {
  ID : string;
  UserID : Z;
  AccountID : string;
  TransactionID : string;
  TransactionType : string;
  TransactionStatus : string;
  Amount : float;
  BalanceBefore : float;
  BalanceAfter : float;
  Currency : string;
  Description : option string;
  ExternalReference : option string;
  PaymentMethod : option string;
  Metadata : option string;
  IsAccessibleFromExternal : bool;
  CreatedAt : Time;
  UpdatedAt : Time
}.

Definition TableName : string := "historical_transactions".

(** [entityToModel converts entities to database model]. *)
Definition entityToModel (transaction : Transaction) : TransactionModel :=
  let model :=
    mkModel (entities.ID transaction) (entities.UserID transaction)
      (entities.AccountID transaction) (entities.TransactionID transaction)
      (entities.TransactionType_ transaction)
      (entities.TransactionStatus_ transaction) (entities.Amount transaction)
      (entities.BalanceBefore transaction) (entities.BalanceAfter transaction)
      (entities.Currency transaction) (entities.Description transaction)
      (entities.ExternalReference transaction) None
      (entities.Metadata transaction)
      (entities.IsAccessibleFromExternal transaction)
      (entities.CreatedAt transaction) (entities.UpdatedAt transaction) in
  match entities.PaymentMethod_ transaction with
  | Some pm =>
      mkModel (ID model) (UserID model) (AccountID model) (TransactionID model)
        (TransactionType model) (TransactionStatus model) (Amount model)
        (BalanceBefore model) (BalanceAfter model) (Currency model)
        (Description model) (ExternalReference model) (Some pm)
        (Metadata model) (IsAccessibleFromExternal model) (CreatedAt model)
        (UpdatedAt model)
  | None => model
  end.

(** [modelToEntity converts database model to entities]. *)
Definition modelToEntity (model : TransactionModel) : Transaction :=
  let transaction :=
    mkTransaction (ID model) (UserID model) (AccountID model)
      (TransactionID model) (TransactionType model) (TransactionStatus model)
      (Amount model) (BalanceBefore model) (BalanceAfter model)
      (Currency model) (Description model) (ExternalReference model) None
      (Metadata model) (IsAccessibleFromExternal model) (CreatedAt model)
      (UpdatedAt model) in
  match PaymentMethod model with
  | Some pm =>
      mkTransaction (entities.ID transaction) (entities.UserID transaction)
        (entities.AccountID transaction) (entities.TransactionID transaction)
        (entities.TransactionType_ transaction)
        (entities.TransactionStatus_ transaction)
        (entities.Amount transaction) (entities.BalanceBefore transaction)
        (entities.BalanceAfter transaction) (entities.Currency transaction)
        (entities.Description transaction)
        (entities.ExternalReference transaction) (Some pm)
        (entities.Metadata transaction)
        (entities.IsAccessibleFromExternal transaction)
        (entities.CreatedAt transaction) (entities.UpdatedAt transaction)
  | None => transaction
  end.

(** *** The database behind [*gorm.DB]

    GORM and PostgreSQL are not part of the repository.  The model keeps what
    the repository's three statements depend on: the rows of the table, the
    two uniqueness constraints and the column defaults and types the model's
    tags declare, and what can happen around a statement that the program
    does not control. *)

(** What a column gives back of a value written to it is the database's
    business: a [decimal(15,2)] column keeps an amount to two decimals, a
    timestamp column keeps an instant at its own precision, and the default
    [now()] is the clock reading that takes the place of a zero time when
    the row goes in.  The three are taken as given: [default_now n] is that
    reading for the row stored at position [n] of the table. *)
Class Columns : Type := {
  numeric_15_2 : float -> float;
  timestamp_tz : Time -> Time;
  default_now : nat -> Time
}.

(** What precedes one statement: nothing; a failure of the statement itself
    (connection lost, context cancelled, a value the schema refuses); or
    another writer committing a row first. *)
Inductive Interference : Type :=
| Quiet
| Fault (e : error)
| RacingInsert (row : TransactionModel).

(** The table, oldest row first, and the interferences to come, one per
    statement; when none is left the statements run undisturbed. *)
Record DB : Type := mkDB {
  table : list TransactionModel;
  pending : list Interference
}.

Definition has_id (id : string) (rows : list TransactionModel) : bool :=
  existsb (fun r => (ID r =? id)%string) rows.

Definition has_transaction_id (tid : string) (rows : list TransactionModel)
  : bool :=
  existsb (fun r => (TransactionID r =? tid)%string) rows.

(** [SELECT count( * ) ... WHERE transaction_id = ?]. *)
Definition count_transaction_id (tid : string) (rows : list TransactionModel)
  : Z :=
  Z.of_nat
    (List.length (filter (fun r => (TransactionID r =? tid)%string) rows)).

Definition with_ID (model : TransactionModel) (id : string)
  : TransactionModel :=
  mkModel id (UserID model) (AccountID model) (TransactionID model)
    (TransactionType model) (TransactionStatus model) (Amount model)
    (BalanceBefore model) (BalanceAfter model) (Currency model)
    (Description model) (ExternalReference model) (PaymentMethod model)
    (Metadata model) (IsAccessibleFromExternal model) (CreatedAt model)
    (UpdatedAt model).

(** The column default [gen_random_uuid()].  Of the random draw the model
    keeps that the value is no key of the table: it is longer than every
    key. *)
Definition gen_random_uuid (rows : list TransactionModel) : string :=
  String.append "u"
    (fold_right (fun r acc => String.append (ID r) acc) EmptyString rows).

(** The interference met by the next statement, taken off the list. *)
Definition next (db : DB) : Interference * DB :=
  match pending db with
  | [] => (Quiet, db)
  | i :: rest => (i, mkDB (table db) rest)
  end.

(** The table once a racing writer is through: its row is there if the
    constraints let it in. *)
Definition arrive (i : Interference) (rows : list TransactionModel)
  : list TransactionModel :=
  match i with
  | RacingInsert row =>
      if has_id (ID row) rows || has_transaction_id (TransactionID row) rows
      then rows else rows ++ [row]
  | _ => rows
  end.

(** The row the table holds for [model] inserted under the key [id] as row
    [n].  GORM sends the tag's default in place of a zero value where the
    default is a constant ([default:IDR] for an empty currency,
    [default:true] for a false [IsAccessibleFromExternal]) and leaves a zero
    value out of the statement where the default is a function ([now()] for
    the zero time), so that the database fills it in; the columns of the
    other types keep what they are given. *)
Definition stored {columns : Columns} (model : TransactionModel) (id : string)
  (n : nat) : TransactionModel :=
  let instant (t : Time) :=
    if time_IsZero t then default_now n else timestamp_tz t in
  mkModel id (UserID model) (AccountID model) (TransactionID model)
    (TransactionType model) (TransactionStatus model)
    (numeric_15_2 (Amount model)) (numeric_15_2 (BalanceBefore model))
    (numeric_15_2 (BalanceAfter model))
    (if (Currency model =? "")%string then "IDR" else Currency model)
    (Description model) (ExternalReference model) (PaymentMethod model)
    (Metadata model)
    (if IsAccessibleFromExternal model then IsAccessibleFromExternal model
     else true)
    (instant (CreatedAt model)) (instant (UpdatedAt model)).

(** [db.WithContext(ctx).Create(model)]: the row is inserted unless a
    constraint refuses it; a model without [ID] gets the column default.  The
    first result is what the call leaves in [model.ID]. *)
Definition gorm_Create {columns : Columns} (model : TransactionModel) (db : DB)
  : (string * option error) * DB :=
  let (i, db1) := next db in
  match i with
  | Fault e => ((ID model, Some e), db1)
  | _ =>
      let rows := arrive i (table db1) in
      let id := if (ID model =? "")%string then gen_random_uuid rows
                else ID model in
      if has_id id rows then
        ((ID model, Some (ErrUniqueViolation "historical_transactions_pkey")),
         mkDB rows (pending db1))
      else if has_transaction_id (TransactionID model) rows then
        ((ID model,
          Some (ErrUniqueViolation "idx_historical_transactions_transaction_id")),
         mkDB rows (pending db1))
      else
        ((id, None),
         mkDB (rows ++ [stored model id (List.length rows)]) (pending db1))
  end.

(** [db.WithContext(ctx).Model(&TransactionModel{}).Where("transaction_id = ?",
    transactionID).Count(&count)]. *)
Definition gorm_Count (transactionID : string) (db : DB)
  : (Z * option error) * DB :=
  let (i, db1) := next db in
  match i with
  | Fault e => ((0, Some e), db1)
  | _ =>
      let rows := arrive i (table db1) in
      ((count_transaction_id transactionID rows, None),
       mkDB rows (pending db1))
  end.

(** [db.WithContext(ctx).Where("transaction_id = ?", transactionID).First(&model)]. *)
Definition gorm_First (transactionID : string) (db : DB)
  : (option TransactionModel * option error) * DB :=
  let (i, db1) := next db in
  match i with
  | Fault e => ((None, Some e), db1)
  | _ =>
      let rows := arrive i (table db1) in
      match find (fun r => (TransactionID r =? transactionID)%string) rows with
      | Some model => ((Some model, None), mkDB rows (pending db1))
      | None => ((None, Some ErrRecordNotFound), mkDB rows (pending db1))
      end
  end.

(** *** [transactionRepository] *)

(** [Create creates a new transaction]. *)
Definition Create {columns : Columns} (transaction : Transaction) (db : DB)
  : (Transaction * option error) * DB :=
  let model := entityToModel transaction in
  let '((model_ID, err), db') := gorm_Create model db in
  match err with
  | Some e => ((transaction, Some (ErrWrap "failed to create transaction" e)), db')
  | None =>
      (* Update entities with generated ID *)
      ((set_ID transaction model_ID, None), db')
  end.

(** [GetByTransactionID retrieves a transaction by transaction ID]. *)
Definition GetByTransactionID (transactionID : string) (db : DB)
  : (option Transaction * option error) * DB :=
  let '((found, err), db') := gorm_First transactionID db in
  match err with
  | Some e =>
      if error_eq_dec e ErrRecordNotFound then ((None, None), db')
      else ((None, Some (ErrWrap "failed to get transaction" e)), db')
  | None =>
      match found with
      | Some model => ((Some (modelToEntity model), None), db')
      | None => ((None, None), db')
      end
  end.

(** [Exists checks if a transaction exists by transaction ID]. *)
Definition Exists (transactionID : string) (db : DB)
  : (bool * option error) * DB :=
  let '((count, err), db') := gorm_Count transactionID db in
  match err with
  | Some e =>
      ((false, Some (ErrWrap "failed to check transaction existence" e)), db')
  | None => ((0 <? count, None), db')
  end.

#[global] Instance transactionRepository {columns : Columns}
  : TransactionRepository DB := {
  repositories.Create := Create;
  repositories.GetByTransactionID := GetByTransactionID;
  repositories.Exists := Exists
}.

End postgres.

(* ===================================================================== *)
(** ** internal/deliveries *)
(* ===================================================================== *)

Module deliveries.

(** [KafkaTransactionMessage represents the incoming Kafka message
    structure].  The two timestamps are [[]interface{}]: whatever JSON values
    the array held. *)
Record KafkaTransactionMessage : Type := mkMessage {
  ID : string;
  UserID : Z;
  AccountID : string;
  TransactionID : string;
  TransactionType : string;
  TransactionStatus : string;
  Amount : float;
  BalanceBefore : float;
  BalanceAfter : float;
  Currency : string;
  Description : string;
  ExternalReference : option string;
  PaymentMethod : string;
  Metadata : option string;
  IsAccessibleFromExternal : bool;
  CreatedAt : list JSON;
  UpdatedAt : list JSON
}.

(** [%d] of a length. *)
Definition itoa (n : nat) : string := NilZero.string_of_uint (Nat.to_uint n).

(** [int(timestampArray[i].(float64))]. *)
Definition component (timestampArray : list JSON) (i : nat) : Completion Z :=
  match assert_float64 (nth i timestampArray JNull) with
  | Returns f => Returns (float64_to_int f)
  | Panics v => Panics v
  end.

Definition and_then {A B} (c : Completion A) (k : A -> Completion B)
  : Completion B :=
  match c with
  | Returns a => k a
  | Panics v => Panics v
  end.

(** [parseTimestamp converts array timestamp to time.Time].  The results are
    the instant and the error. *)
Definition parseTimestamp (timestampArray : list JSON)
  : Completion (Time * option error) :=
  if (List.length timestampArray <? 6)%nat then
    Returns (TimeZero,
             Some (ErrNew (String.append "invalid timestamp array length: "
                             (itoa (List.length timestampArray)))))
  else
    and_then (component timestampArray 0) (fun year =>
    and_then (component timestampArray 1) (fun month =>
    and_then (component timestampArray 2) (fun day =>
    and_then (component timestampArray 3) (fun hour =>
    and_then (component timestampArray 4) (fun minute =>
    and_then (component timestampArray 5) (fun second =>
    and_then (if (6 <? List.length timestampArray)%nat
              then component timestampArray 6
              else Returns 0) (fun nanosecond =>
    Returns (time_Date year month day hour minute second nanosecond,
             None)))))))).

Section Handler.

Context {S : Type} {transactionRepo : TransactionRepository S}.

Local Open Scope go_scope.

(** One timestamp of [kafkaMessageToEntity]: parse it, and on an error warn
    and take the current time. *)
Definition timestampOrNow (timestampArray : list JSON) (warning : string)
  : Go S Time :=
  '(parsed, err) <- lift (parseTimestamp timestampArray) ;;
  match err with
  | Some _ => emit WARN warning ;;; time_Now
  | None => ret parsed
  end.

(** The record [kafkaMessageToEntity] builds from the message and the two
    instants, lines 89 to 121. *)
Definition buildEntity (msg : KafkaTransactionMessage)
  (createdAt updatedAt : Time) : Transaction :=
  (* Convert amount from cents to decimal *)
  let amount := (Amount msg / 100)%float in
  mkTransaction (ID msg) (UserID msg) (AccountID msg) (TransactionID msg)
    (TransactionType msg) (TransactionStatus msg) amount (BalanceBefore msg)
    (BalanceAfter msg) (Currency msg)
    (* Set description if not empty *)
    (if (Description msg =? "")%string then None else Some (Description msg))
    (ExternalReference msg)
    (* Set payment method if not empty *)
    (if (PaymentMethod msg =? "")%string then None
     else Some (PaymentMethod msg))
    (Metadata msg) (IsAccessibleFromExternal msg) createdAt updatedAt.

(** [kafkaMessageToEntity converts Kafka message to domain entities]. *)
Definition kafkaMessageToEntity (msg : KafkaTransactionMessage)
  : Go S (Transaction * option error) :=
  createdAt <- timestampOrNow (CreatedAt msg)
                 "Failed to parse createdAt, using current time" ;;
  updatedAt <- timestampOrNow (UpdatedAt msg)
                 "Failed to parse updatedAt, using current time" ;;
  ret (buildEntity msg createdAt updatedAt, None).

(** [json.Unmarshal(message, &kafkaMsg)]: the decoder is the standard
    library's and is taken as given. *)
Variable json_Unmarshal : string -> KafkaTransactionMessage + error.

(** [HandleMessage handles incoming transaction messages]. *)
Definition HandleMessage (message : string) : Go S (option error) :=
  emit DEBUG "Received message" ;;;
  match json_Unmarshal message with
  | inr e => ret (Some (ErrWrap "failed to unmarshal message" e))
  | inl kafkaMsg =>
      emit DEBUG "Unmarshalled message" ;;;
      '(transaction, err) <- kafkaMessageToEntity kafkaMsg ;;
      match err with
      | Some e => ret (Some (ErrWrap "failed to convert message to entities" e))
      | None =>
          '(_, err) <- ProcessTransaction transaction ;;
          match err with
          | Some e => ret (Some (ErrWrap "failed to process transaction" e))
          | None => ret None
          end
      end
  end.

End Handler.

End deliveries.

(* ===================================================================== *)
(** ** internal/infrastructures/kafka/consumer *)
(* ===================================================================== *)

Module consumer.

(** A [kafka.Message], as far as the loop looks at it. *)
Record Message : Type := mkMsg {
  Partition : Z;
  Offset : Z;
  Value : string
}.

(** Why a context is done: [ctx.Err()] is one of two errors. *)
Inductive Cause : Type := Canceled | DeadlineExceeded.

Definition ctx_Err (c : Cause) : error :=
  match c with
  | Canceled => ErrCanceled
  | DeadlineExceeded => ErrDeadlineExceeded
  end.

(** What the world outside does during one iteration of the loop: the
    context is done when the [select] looks at it; or it is not and
    [FetchMessage] fails (with the context's error when the context ends
    during the fetch); or [FetchMessage] delivers a message, and
    [CommitMessages], called later for it, answers [commitErr]. *)
Inductive Iteration : Type :=
| SelectDone (cause : Cause)
| FetchFails (err : error)
| FetchOk (message : Message) (commitErr : option error).

(** What the loop does that the outside can see, in order. *)
Inductive Event : Type :=
| EvFetched (message : Message)
| EvFetchFailed (err : error)
| EvHandled (message : Message) (result : Completion (option error))
| EvCommitted (message : Message) (result : option error)
| EvSlept.

(** How a run of [Consume] stands when the iterations given are used up:
    it has exited (returned or panicked), or it is blocked in
    [FetchMessage], waiting. *)
Inductive Run : Type :=
| Exited (c : Completion (option error))
| Fetching.

Section Consumer.

Context {S : Type}.

(** [MessageHandler defines the function signature for message handling]. *)
Definition MessageHandler : Type := string -> Go S (option error).

Definition logged (l : Level) (msg : string) (w : World S) : World S :=
  snd (emit l msg w).

(** The [for] loop of [Consume]: one iteration per element of [script]. *)
Fixpoint loop (handler : MessageHandler) (script : list Iteration)
  (w : World S) : Run * list Event * World S :=
  match script with
  | [] => (Fetching, [], w)
  | SelectDone cause :: _ =>
      (Exited (Returns (Some (ctx_Err cause))), [],
       logged INFO "Consumer context cancelled, stopping..." w)
  | FetchFails err :: rest =>
      if errors_Is err ErrCanceled then
        (Exited (Returns None), [EvFetchFailed err], w)
      else
        let w1 := logged ERROR "Failed to fetch message" w in
        (* Backoff *)
        let '(r, evs, w2) := loop handler rest w1 in
        (r, EvFetchFailed err :: EvSlept :: evs, w2)
  | FetchOk message commitErr :: rest =>
      (* Process message *)
      match handler (Value message) w with
      | (Panics v, w1) =>
          (Exited (Panics v), [EvFetched message; EvHandled message (Panics v)],
           w1)
      | (Returns herr, w1) =>
          let w2 := match herr with
                    | Some _ => logged ERROR "Failed to process message" w1
                    | None => w1
                    end in
          (* Commit message *)
          let w3 := match commitErr with
                    | Some _ => logged ERROR "Failed to commit message" w2
                    | None => w2
                    end in
          let '(r, evs, w4) := loop handler rest w3 in
          (r,
           EvFetched message :: EvHandled message (Returns herr)
             :: EvCommitted message commitErr :: evs,
           w4)
      end
  end.

(** [Consume starts consuming messages]. *)
Definition Consume (handler : MessageHandler) (script : list Iteration)
  (w : World S) : Run * list Event * World S :=
  loop handler script (logged INFO "Starting Kafka consumer" w).

End Consumer.

End consumer.

(* ===================================================================== *)
(** ** Reading a run *)
(* ===================================================================== *)

Module observe.

(** The repository methods a run from [w] to [w'] invoked. *)
Definition made {S} (w w' : World S) : list RepoCall :=
  skipn (List.length (calls w)) (calls w').

(** The diagnostics a run from [w] to [w'] emitted. *)
Definition emitted {S} (w w' : World S) : list LogEntry :=
  skipn (List.length (logs w)) (logs w').

(** The outcome of a run of [ProcessTransaction] started in [w]; a run that
    panicked has none. *)
Definition outcome {S} (w : World S)
  (r : Completion (Transaction * option error) * World S) : option Outcome :=
  match r with
  | (Returns (_, err), w') => Some (outcome_of err (made w w'))
  | (Panics _, _) => None
  end.

(** The error a run returned. *)
Definition returned_error {A S}
  (r : Completion (A * option error) * World S) : option (option error) :=
  match r with
  | (Returns (_, err), _) => Some err
  | (Panics _, _) => None
  end.

Definition warning : LogEntry :=
  mkLog WARN "Failed transaction has balance change".

(** The record [t] with other balances. *)
Definition with_balances (t : Transaction) (before after : float)
  : Transaction :=
  mkTransaction (ID t) (UserID t) (AccountID t) (TransactionID t)
    (TransactionType_ t) (TransactionStatus_ t) (Amount t) before after
    (Currency t) (Description t) (ExternalReference t) (PaymentMethod_ t)
    (Metadata t) (IsAccessibleFromExternal t) (CreatedAt t) (UpdatedAt t).

(** Whether a run of [ProcessTransaction] on [t] from [w] gets past the
    existence check: [t] is valid and [Exists] answers, without an error,
    that there is no row. *)
Definition reaches_create {S} {transactionRepo : TransactionRepository S}
  (t : Transaction) (w : World S) : bool :=
  IsValid t
  && match fst (Exists (TransactionID t) (store w)) with
     | (false, None) => true
     | _ => false
     end.

(** A call with the balances of the record it carries blanked. *)
Definition blind_call (c : RepoCall) : RepoCall :=
  match c with
  | CallCreate t => CallCreate (with_balances t 0%float 0%float)
  | _ => c
  end.

Definition not_warning (e : LogEntry) : bool := negb (is_warning e).

(** A row with its two balance columns blanked. *)
Definition blind (r : postgres.TransactionModel) : postgres.TransactionModel :=
  postgres.mkModel (postgres.ID r) (postgres.UserID r) (postgres.AccountID r)
    (postgres.TransactionID r) (postgres.TransactionType r)
    (postgres.TransactionStatus r) (postgres.Amount r) 0%float 0%float
    (postgres.Currency r) (postgres.Description r)
    (postgres.ExternalReference r) (postgres.PaymentMethod r)
    (postgres.Metadata r) (postgres.IsAccessibleFromExternal r)
    (postgres.CreatedAt r) (postgres.UpdatedAt r).

(** A timestamp array on which [parseTimestamp] makes no failing type
    assertion: it is too short to be looked into, or the components read
    (six, and the seventh when there is one) are numbers. *)
Definition is_number (v : JSON) : bool :=
  match v with JNumber _ => true | _ => false end.

Definition assertions_hold (timestampArray : list JSON) : bool :=
  (List.length timestampArray <? 6)%nat
  || forallb is_number (firstn 7 timestampArray).

(** Projections of the events of the loop. *)
Definition fetched (evs : list consumer.Event) : list consumer.Message :=
  flat_map (fun e => match e with consumer.EvFetched m => [m] | _ => [] end)
    evs.

Definition handled (evs : list consumer.Event) : list consumer.Message :=
  flat_map (fun e => match e with consumer.EvHandled m _ => [m] | _ => [] end)
    evs.

Definition handled_to_return (evs : list consumer.Event)
  : list consumer.Message :=
  flat_map
    (fun e => match e with
              | consumer.EvHandled m (Returns _) => [m]
              | _ => []
              end) evs.

Definition committed (evs : list consumer.Event) : list consumer.Message :=
  flat_map (fun e => match e with consumer.EvCommitted m _ => [m] | _ => [] end)
    evs.





(** The messages the outside delivers before the loop stops on its own. *)
Fixpoint delivered (script : list consumer.Iteration) : list consumer.Message :=
  match script with
  | [] => []
  | consumer.SelectDone _ :: _ => []
  | consumer.FetchFails err :: rest =>
      if errors_Is err ErrCanceled then [] else delivered rest
  | consumer.FetchOk m _ :: rest => m :: delivered rest
  end.

(** How the loop stands at the end of [script] when no handler panics. *)
Fixpoint exit_of (script : list consumer.Iteration) : consumer.Run :=
  match script with
  | [] => consumer.Fetching
  | consumer.SelectDone cause :: _ =>
      consumer.Exited (Returns (Some (consumer.ctx_Err cause)))
  | consumer.FetchFails err :: rest =>
      if errors_Is err ErrCanceled then consumer.Exited (Returns None)
      else exit_of rest
  | consumer.FetchOk _ _ :: rest => exit_of rest
  end.

(** Events in which every message goes through fetch, handler and commit in
    this order and once each: a handler that returned, whatever it returned,
    is followed at once by the commit of its message; a commit occurs nowhere
    else.  A handler that panics ends the events, as does a fetch that is not
    retried. *)
Inductive Acknowledged : list consumer.Event -> Prop :=
| Ack_nil : Acknowledged []
| Ack_stop : forall err, Acknowledged [consumer.EvFetchFailed err]
| Ack_retry : forall err evs,
    Acknowledged evs ->
    Acknowledged (consumer.EvFetchFailed err :: consumer.EvSlept :: evs)
| Ack_panic : forall m v,
    Acknowledged [consumer.EvFetched m; consumer.EvHandled m (Panics v)]
| Ack_message : forall m herr cerr evs,
    Acknowledged evs ->
    Acknowledged
      (consumer.EvFetched m :: consumer.EvHandled m (Returns herr)
         :: consumer.EvCommitted m cerr :: evs).

End observe.
Import observe.

(* ===================================================================== *)
(** ** Sample data *)
(* ===================================================================== *)

Module samples.

Definition noon : Time := time_Date 2024 1 1 12 0 0 0.

(** A wall clock: the [k]-th reading is [k] seconds into the epoch. *)
Definition clock (k : nat) : Time := mkTime (Z.of_nat k) 0.

(** A database whose columns hold the sample amounts and instants as they
    are written, and whose own clock runs like [clock]. *)
#[global] Instance columns : postgres.Columns := {
  postgres.numeric_15_2 := fun amount => amount;
  postgres.timestamp_tz := fun instant => instant;
  postgres.default_now := clock
}.

(** The record of the use-case tests: a successful top-up. *)
Definition topup : Transaction :=
  mkTransaction "" 123 "account-123" "trans-123" TransactionTypeTopup
    TransactionStatusSuccess 100.5%float 1000%float 1100.5%float "IDR" None
    None None None true noon noon.

(** A second delivery of the same transaction. *)
Definition topup_again : Transaction :=
  mkTransaction "" 123 "account-123" "trans-123" TransactionTypeTopup
    TransactionStatusSuccess 100.5%float 1000%float 1100.5%float "IDR"
    (Some "redelivered") None None None true noon noon.

(** The failed payment whose balance moved, of the use-case tests. *)
Definition failed_payment : Transaction :=
  mkTransaction "" 123 "account-123" "trans-failed" TransactionTypePayment
    TransactionStatusFailed 100.5%float 1000%float 900%float "IDR" None None
    None None true noon noon.

(** The same with a zero amount: it fails validation. *)
Definition failed_payment_zero_amount : Transaction :=
  mkTransaction "" 123 "account-123" "trans-failed" TransactionTypePayment
    TransactionStatusFailed 0%float 1000%float 900%float "IDR" None None
    None None true noon noon.

Definition empty_db : postgres.DB := postgres.mkDB [] [].

Definition fresh : World postgres.DB := mkWorld empty_db [] [] clock 0%nat.

(** A database in which another writer inserts the top-up between the
    existence check and the create. *)
Definition raced_db : postgres.DB :=
  postgres.mkDB []
    [postgres.Quiet;
     postgres.RacingInsert
       (postgres.with_ID (postgres.entityToModel topup) "other-writer")].

Definition raced : World postgres.DB := mkWorld raced_db [] [] clock 0%nat.

Definition n (f : float) : JSON := JNumber f.

(** The message of the handler tests. *)
Definition payment_message : deliveries.KafkaTransactionMessage :=
  deliveries.mkMessage "trans-id-123" 456 "account-456" "trans-456" "PAYMENT"
    "SUCCESS" 15025%float 1000%float 849.75%float "IDR" "Test payment"
    (Some "ext-ref-123") "BANK_TRANSFER" (Some "{}") true
    [n 2024; n 2; n 20; n 14; n 15; n 30]%float
    [n 2024; n 2; n 20; n 14; n 15; n 30]%float.

(** A message with blank optional fields and a [createdAt] that is too
    short. *)
Definition blank_message : deliveries.KafkaTransactionMessage :=
  deliveries.mkMessage "trans-id-123" 456 "account-456" "trans-456" "TOPUP"
    "SUCCESS" 10000%float 1000%float 1100%float "IDR" "" None "" None false
    [n 2024%float]
    [n 2024; n 1; n 1; n 12; n 0; n 0]%float.

(** A message whose [createdAt] holds the year as a string. *)
Definition string_year_message : deliveries.KafkaTransactionMessage :=
  deliveries.mkMessage "trans-id-123" 456 "account-456" "trans-456" "TOPUP"
    "SUCCESS" 10000%float 1000%float 1100%float "IDR" "" None "" None false
    [JString "2024"; n 1%float; n 1%float; n 12%float; n 0%float; n 0%float]
    [n 2024; n 1; n 1; n 12; n 0; n 0]%float.

(** A valid top-up for transaction "trans-456". *)
Definition topup_message : deliveries.KafkaTransactionMessage :=
  deliveries.mkMessage "" 456 "account-456" "trans-456" "TOPUP" "SUCCESS"
    10000%float 1000%float 1100%float "IDR" "" None "" None true
    [n 2024; n 1; n 1; n 12; n 0; n 0]%float
    [n 2024; n 1; n 1; n 12; n 0; n 0]%float.

(** A decoder that knows one payload and refuses every other. *)
Definition decode (payload : string)
  : deliveries.KafkaTransactionMessage + error :=
  if (payload =? "topup trans-456")%string then inl topup_message
  else inr (ErrNew "invalid character 'j' looking for beginning of value").

Definition malformed : consumer.Message :=
  consumer.mkMsg 0 7 "{invalid: json}".
Definition valid : consumer.Message := consumer.mkMsg 0 8 "topup trans-456".
Definition valid_again : consumer.Message :=
  consumer.mkMsg 0 9 "topup trans-456".

Definition m1 : consumer.Message := consumer.mkMsg 0 41 "first".
Definition m2 : consumer.Message := consumer.mkMsg 0 42 "second".

(** A handler that fails on every message. *)
Definition failing_handler : @consumer.MessageHandler postgres.DB :=
  fun _ => ret (Some (ErrNew "failed to process transaction")).

End samples.

(* ===================================================================== *)
(** ** internal/infrastructures/config *)
(* ===================================================================== *)

Module config.

(** [KafkaConfig holds Kafka configuration].  Durations are nanoseconds. *)
Record KafkaConfig : Type := mkKafka {
  Brokers : list string;
  Topic : string;
  GroupID : string;
  CommitInterval : Z;
  MaxBytes : Z
}.

(** [DatabaseConfig holds database configuration]. *)
Record DatabaseConfig : Type := mkDatabase {
  Host : string;
  Port : Z;
  User : string;
  Password : string;
  Name : string;
  SSLMode : string;
  MaxIdleConns : Z;
  MaxOpenConns : Z;
  ConnMaxLifetime : Z
}.

(** [AppConfig holds application configuration].  Its field [Port] is
    [AppPort] here, the name being taken by [DatabaseConfig]. *)
Record AppConfig : Type := mkApp {
  LogLevel : string;
  Environment : string;
  AppPort : Z;
  Debug : bool
}.

Record Config : Type := mkConfig {
  Kafka : KafkaConfig;
  Database : DatabaseConfig;
  App : AppConfig
}.

(** [%d] of an int. *)
Definition itoa (z : Z) : string := NilZero.string_of_int (Z.to_int z).

(** [strings.Join(elems, sep)]. *)
Definition strings_Join (elems : list string) (sep : string) : string :=
  String.concat sep elems.

Definition validSSLModes : list string :=
  ["disable"; "allow"; "prefer"; "require"; "verify-ca"; "verify-full"].

Definition validLogLevels : list string :=
  ["debug"; "info"; "warn"; "error"; "fatal"].

(** [strings.TrimSpace], [strings.EqualFold] and [strings.ToLower] are the
    standard library's, with its Unicode tables, and are taken as given. *)
Class Strings : Type := {
  strings_TrimSpace : string -> string;
  strings_EqualFold : string -> string -> bool;
  strings_ToLower : string -> string
}.

Section WithStrings.

Context {strings : Strings}.

(** [helper function to check if slice contains string]. *)
Definition contains (slice : list string) (item : string) : bool :=
  existsb (fun s => strings_EqualFold s item) slice.

(** The loop of [Validate] over the brokers, from index [i] on: each broker
    is replaced by its trimmed form, and the first one that is empty then
    stops the loop with an error; the brokers after it are left as they
    were. *)
Fixpoint trimBrokers (i : nat) (brokers : list string)
  : list string * option error :=
  match brokers with
  | [] => ([], None)
  | broker :: rest =>
      let trimmed := strings_TrimSpace broker in
      if (trimmed =? "")%string then
        (trimmed :: rest,
         Some (ErrNew (String.append
                         "KAFKA_BROKERS contains empty broker at index "
                         (itoa (Z.of_nat i)))))
      else
        let (rest', err) := trimBrokers (Datatypes.S i) rest in
        (trimmed :: rest', err)
  end.

Definition with_Brokers (c : Config) (brokers : list string) : Config :=
  mkConfig
    (mkKafka brokers (Topic (Kafka c)) (GroupID (Kafka c))
       (CommitInterval (Kafka c)) (MaxBytes (Kafka c)))
    (Database c) (App c).

(** [Validate validates the configuration].  The receiver is a pointer: the
    first result is the configuration as the call leaves it. *)
Definition Validate (c : Config) : Config * option error :=
  (* Kafka validation *)
  if (List.length (Brokers (Kafka c)) =? 0)%nat then
    (c, Some (ErrNew "KAFKA_BROKERS cannot be empty"))
  else
    let (brokers, err) := trimBrokers 0 (Brokers (Kafka c)) in
    let c' := with_Brokers c brokers in
    match err with
    | Some e => (c', Some e)
    | None =>
        (* Database validation *)
        if (Port (Database c') <=? 0) || (65535 <? Port (Database c')) then
          (c',
           Some (ErrNew (String.append
                           "DB_PORT must be between 1 and 65535, got: "
                           (itoa (Port (Database c'))))))
        else if negb (contains validSSLModes (SSLMode (Database c'))) then
          (c',
           Some (ErrNew (String.append "DB_SSLMODE must be one of: "
                           (String.append (strings_Join validSSLModes ", ")
                              (String.append ", got: "
                                 (SSLMode (Database c')))))))
        else if negb (contains validLogLevels
                        (strings_ToLower (LogLevel (App c')))) then
          (c',
           Some (ErrNew (String.append "APP_LOG_LEVEL must be one of: "
                           (String.append (strings_Join validLogLevels ", ")
                              (String.append ", got: " (LogLevel (App c')))))))
        else (c', None)
    end.

(** [IsDevelopment returns true if running in development mode]. *)
Definition IsDevelopment (c : Config) : bool :=
  (strings_ToLower (Environment (App c)) =? "development")%string.

(** [IsProduction returns true if running in production mode]. *)
Definition IsProduction (c : Config) : bool :=
  (strings_ToLower (Environment (App c)) =? "production")%string.

End WithStrings.

(** The format
    ["host=%s user=%s password=%s dbname=%s port=%d sslmode=%s TimeZone=UTC"]. *)
Definition formatDSN (host user password dbname : string) (port : Z)
  (sslmode : string) : string :=
  String.concat ""
    ["host="; host; " user="; user; " password="; password; " dbname=";
     dbname; " port="; itoa port; " sslmode="; sslmode; " TimeZone=UTC"].

(** [GetDSN returns the database connection string]. *)
Definition GetDSN (c : Config) : string :=
  formatDSN (Host (Database c)) (User (Database c)) (Password (Database c))
    (Name (Database c)) (Port (Database c)) (SSLMode (Database c)).

End config.

(* ===================================================================== *)
(** ** postgres: the connection *)
(* ===================================================================== *)

Module connection.

(** The levels of GORM's logger. *)
Inductive LogLevel : Type := Silent | Error | Warn | Info.

(** The log level [NewConnection] configures, lines 18 to 31. *)
Definition gormLogLevel (appConfig : config.AppConfig) : LogLevel :=
  if (config.Environment appConfig =? "development")%string
     || config.Debug appConfig
  then
    if (config.LogLevel appConfig =? "debug")%string then Info
    else if (config.LogLevel appConfig =? "info")%string then Warn
    else Error
  else Error.

(** The connection string [NewConnection] opens, lines 15 and 16. *)
Definition dsn (cfg : config.DatabaseConfig) : string :=
  config.formatDSN (config.Host cfg) (config.User cfg) (config.Password cfg)
    (config.Name cfg) (config.Port cfg) (config.SSLMode cfg).

End connection.

(* ===================================================================== *)
(** ** A sample deployment *)
(* ===================================================================== *)

Module deployment.

(** Stand-ins for the three functions of package [strings], right on ASCII
    text with blanks as the only white space. *)
Definition lower (c : Ascii.ascii) : Ascii.ascii :=
  let n := Ascii.nat_of_ascii c in
  if ((65 <=? n) && (n <=? 90))%nat then Ascii.ascii_of_nat (n + 32) else c.

Fixpoint ToLower (s : string) : string :=
  match s with
  | EmptyString => EmptyString
  | String c s' => String (lower c) (ToLower s')
  end.

Definition EqualFold (a b : string) : bool := (ToLower a =? ToLower b)%string.

Fixpoint trimLeft (s : string) : string :=
  match s with
  | String c s' => if Ascii.eqb c Ascii.Space then trimLeft s' else s
  | EmptyString => EmptyString
  end.

Fixpoint trimRight (s : string) : string :=
  match s with
  | EmptyString => EmptyString
  | String c s' =>
      let r := trimRight s' in
      if Ascii.eqb c Ascii.Space && (r =? "")%string then EmptyString
      else String c r
  end.

Definition TrimSpace (s : string) : string := trimRight (trimLeft s).

Definition ascii : config.Strings :=
  {| config.strings_TrimSpace := TrimSpace;
     config.strings_EqualFold := EqualFold;
     config.strings_ToLower := ToLower |}.

(** A configuration as the environment of a deployment gives it. *)
Definition deployed : config.Config :=
  config.mkConfig
    (config.mkKafka [" kafka-1:9092"; "kafka-2:9092 "] "transactions"
       "transaction-consumer" 2000000000 10485760)
    (config.mkDatabase "db" 5432 "app" "secret" "ledger" "Require" 10 100
       3600000000000)
    (config.mkApp "INFO" "Production" 8080 false).

End deployment.

(* ===================================================================== *)
(** ** Invariants of the table *)
(* ===================================================================== *)

Module invariants.

(** The next statement on [db] meets no fault (a racing writer may still
    come first). *)
Definition answers (db : postgres.DB) : bool :=
  match postgres.pending db with
  | postgres.Fault _ :: _ => false
  | _ => true
  end.

(** A record the table holds as it is: it names its currency and is
    accessible, so that no default takes the place of a zero value, and the
    columns keep its amounts and instants exactly. *)
Definition held_exactly {columns : postgres.Columns} (t : Transaction) : Prop :=
  Currency t <> ""
  /\ IsAccessibleFromExternal t = true
  /\ postgres.numeric_15_2 (Amount t) = Amount t
  /\ postgres.numeric_15_2 (BalanceBefore t) = BalanceBefore t
  /\ postgres.numeric_15_2 (BalanceAfter t) = BalanceAfter t
  /\ time_IsZero (CreatedAt t) = false
  /\ postgres.timestamp_tz (CreatedAt t) = CreatedAt t
  /\ time_IsZero (UpdatedAt t) = false
  /\ postgres.timestamp_tz (UpdatedAt t) = UpdatedAt t.

(** The number of timestamp arrays of a message that are too short to be
    parsed. *)
Definition short_timestamps (msg : deliveries.KafkaTransactionMessage) : nat :=
  (if (List.length (deliveries.CreatedAt msg) <? 6)%nat then 1 else 0)
  + (if (List.length (deliveries.UpdatedAt msg) <? 6)%nat then 1 else 0).

(** A payload the handler can translate: it decodes, and no type assertion
    on the timestamps of the message fails. *)
Definition translatable
  (json_Unmarshal : string -> deliveries.KafkaTransactionMessage + error)
  (payload : string) : bool :=
  match json_Unmarshal payload with
  | inl msg =>
      assertions_hold (deliveries.CreatedAt msg)
      && assertions_hold (deliveries.UpdatedAt msg)
  | inr _ => false
  end.

(** A message the handler cannot survive: its payload decodes, and a type
    assertion on one of its timestamps fails. *)
Definition poison
  (json_Unmarshal : string -> deliveries.KafkaTransactionMessage + error)
  (m : consumer.Message) : bool :=
  match json_Unmarshal (consumer.Value m) with
  | inl msg =>
      negb (assertions_hold (deliveries.CreatedAt msg)
            && assertions_hold (deliveries.UpdatedAt msg))
  | inr _ => false
  end.

(** The messages before the first poison message, and that message when
    there is one. *)
Fixpoint upto_poison
  (json_Unmarshal : string -> deliveries.KafkaTransactionMessage + error)
  (ms : list consumer.Message)
  : list consumer.Message * option consumer.Message :=
  match ms with
  | [] => ([], None)
  | m :: rest =>
      if poison json_Unmarshal m then ([], Some m)
      else let (before, p) := upto_poison json_Unmarshal rest in
           (m :: before, p)
  end.

(** The iterations of a script carry no cancellation. *)
Definition no_cancellation (script : list consumer.Iteration) : bool :=
  forallb
    (fun it =>
       match it with
       | consumer.SelectDone _ => false
       | consumer.FetchFails err => negb (errors_Is err ErrCanceled)
       | consumer.FetchOk _ _ => true
       end) script.

(** The messages of a script. *)
Definition messages (script : list consumer.Iteration)
  : list consumer.Message :=
  flat_map
    (fun it => match it with consumer.FetchOk m _ => [m] | _ => [] end)
    script.

End invariants.
Import invariants.

(* ===================================================================== *)
(** * Properties *)
(* ===================================================================== *)

(** ** Lists, strings and runs *)

Lemma skipn_length_app {A} (l l' : list A) :
  skipn (List.length l) (l ++ l') = l'.
Proof. induction l as [|a l IH]; simpl; auto. Qed.

Lemma string_length_append (s1 s2 : string) :
  String.length (String.append s1 s2)
  = (String.length s1 + String.length s2)%nat.
Proof. induction s1 as [|c s1 IH]; simpl; congruence. Qed.

Lemma made_nothing {S} (w : World S) : made w w = [].
Proof. unfold made. apply skipn_all. Qed.

Lemma emitted_nothing {S} (w : World S) : emitted w w = [].
Proof. unfold emitted. apply skipn_all. Qed.

(** In what it returns the validator is the conjunction of the five
    invariants of the data model. *)
Lemma IsValid_true_iff (t : Transaction) :
  IsValid t = true <->
  0 < UserID t /\ AccountID t <> "" /\ TransactionID t <> "" /\
  TransactionType_ t <> "" /\ (0 <? Amount t)%float = true.
Proof.
  unfold IsValid.
  rewrite !andb_true_iff, !negb_true_iff, Z.ltb_lt, !String.eqb_neq.
  tauto.
Qed.

Lemma IsValid_false_iff (t : Transaction) :
  IsValid t = false <->
  UserID t <= 0 \/ AccountID t = "" \/ TransactionID t = "" \/
  TransactionType_ t = "" \/ (0 <? Amount t)%float = false.
Proof.
  unfold IsValid.
  rewrite !andb_false_iff, !negb_false_iff, Z.ltb_ge, !String.eqb_eq.
  tauto.
Qed.

Lemma wrapped_is_not_the_validation_error (msg : string) (e : error) :
  outcome_of (Some (ErrWrap msg e)) = fun _ => Failed.
Proof.
  unfold outcome_of.
  destruct (error_eq_dec (ErrWrap msg e) (ErrNew "invalid transaction data"));
    [discriminate | reflexivity].
Qed.

(** ** [ProcessTransaction] over any repository *)

Section UseCaseFacts.

Context {S : Type} {transactionRepo : TransactionRepository S}.

(** The consistency check only writes to the diagnostics. *)
Lemma checkFailedBalance_frame (t : Transaction) (w : World S) :
  exists l,
    checkFailedBalance t w
    = (Returns tt, mkWorld (store w) (logs w ++ l) (calls w) (wall w) (ticks w))
    /\ l = (if (TransactionStatus_ t =? TransactionStatusFailed)%string
               && negb (BalanceBefore t =? BalanceAfter t)%float
            then [warning] else []).
Proof.
  unfold checkFailedBalance.
  destruct (TransactionStatus_ t =? TransactionStatusFailed)%string; simpl.
  - destruct (BalanceBefore t =? BalanceAfter t)%float; simpl.
    + exists []. rewrite app_nil_r. destruct w; auto.
    + exists [warning]. auto.
  - exists []. rewrite app_nil_r. destruct w; auto.
Qed.

(** C2.  A record that fails one of the five invariants (user id positive,
    account id, transaction id and transaction type non-empty, amount
    positive) is rejected: [ProcessTransaction] returns the error
    "invalid transaction data" and leaves the world as it found it, so no
    repository method was invoked, neither [Exists] nor [Create], and the
    store did not change. *)
Theorem ProcessTransaction_rejects_invalid (t : Transaction) (w : World S) :
  UserID t <= 0 \/ AccountID t = "" \/ TransactionID t = "" \/
  TransactionType_ t = "" \/ (0 <? Amount t)%float = false ->
  ProcessTransaction t w
  = (Returns (t, Some (ErrNew "invalid transaction data")), w)
  /\ outcome w (ProcessTransaction t w) = Some Rejected
  /\ made w (snd (ProcessTransaction t w)) = []
  /\ store (snd (ProcessTransaction t w)) = store w.
Proof.
  intros H. apply IsValid_false_iff in H.
  assert (E : ProcessTransaction t w
              = (Returns (t, Some (ErrNew "invalid transaction data")), w)).
  { unfold ProcessTransaction. rewrite H. reflexivity. }
  rewrite E. simpl. rewrite made_nothing. auto.
Qed.

(** What a valid record meets next is the existence check. *)
Lemma ProcessTransaction_exists_error (t : Transaction) (w : World S)
  (e : error) (b : bool) (s1 : S) :
  IsValid t = true ->
  Exists (TransactionID t) (store w) = ((b, Some e), s1) ->
  ProcessTransaction t w
  = (Returns (t, Some (ErrWrap "failed to check transaction existence" e)),
     mkWorld s1
       (logs w ++ [mkLog ERROR "Failed to check transaction existence"])
       (calls w ++ [CallExists (TransactionID t)]) (wall w) (ticks w)).
Proof.
  intros V E. unfold ProcessTransaction, bind, invoke. rewrite V.
  cbn [negb]. cbv beta iota. rewrite E. reflexivity.
Qed.

Lemma ProcessTransaction_skips_existing (t : Transaction) (w : World S)
  (s1 : S) :
  IsValid t = true ->
  Exists (TransactionID t) (store w) = ((true, None), s1) ->
  ProcessTransaction t w
  = (Returns (t, None),
     mkWorld s1
       (logs w ++ [mkLog INFO "Transaction already exists, skipping"])
       (calls w ++ [CallExists (TransactionID t)]) (wall w) (ticks w)).
Proof.
  intros V E. unfold ProcessTransaction, bind, invoke. rewrite V.
  cbn [negb]. cbv beta iota. rewrite E. reflexivity.
Qed.

Lemma ProcessTransaction_creates (t : Transaction) (w : World S)
  (s1 s2 : S) (t' : Transaction) (err : option error) :
  IsValid t = true ->
  Exists (TransactionID t) (store w) = ((false, None), s1) ->
  Create t s1 = ((t', err), s2) ->
  ProcessTransaction t w
  = (Returns
       (t', match err with
            | Some e => Some (ErrWrap "failed to create transaction" e)
            | None => None
            end),
     mkWorld s2
       (logs w
          ++ (if (TransactionStatus_ t =? TransactionStatusFailed)%string
                 && negb (BalanceBefore t =? BalanceAfter t)%float
              then [warning] else [])
          ++ [match err with
              | Some _ => mkLog ERROR "Failed to create transaction"
              | None => mkLog INFO "Transaction processed successfully"
              end])
       (calls w ++ [CallExists (TransactionID t); CallCreate t])
       (wall w) (ticks w)).
Proof.
  intros V E C. unfold ProcessTransaction, bind, invoke. rewrite V.
  cbn [negb]. cbv beta iota. rewrite E.
  cbn [negb store logs calls wall ticks].
  destruct (checkFailedBalance_frame t
              (mkWorld s1 (logs w) (calls w ++ [CallExists (TransactionID t)])
                 (wall w) (ticks w))) as (l & -> & ->).
  cbn [store logs calls wall ticks]. rewrite C.
  destruct err; cbn; rewrite <- !app_assoc; reflexivity.
Qed.

End UseCaseFacts.

Section CreateFailure.

Context {S : Type} {transactionRepo : TransactionRepository S}.

(** C3, as the code has it.  When the record is valid, the existence check
    answers that there is no such row, and [Create] then fails with [e], be
    it a unique-constraint violation or any other error, [ProcessTransaction]
    logs the failure and returns [e] wrapped as "failed to create
    transaction": the outcome is Failed, not Skipped. *)
Theorem ProcessTransaction_create_error_is_Failed (t t' : Transaction)
  (w : World S) (e : error) (s1 s2 : S) :
  IsValid t = true ->
  Exists (TransactionID t) (store w) = ((false, None), s1) ->
  Create t s1 = ((t', Some e), s2) ->
  fst (ProcessTransaction t w)
  = Returns (t', Some (ErrWrap "failed to create transaction" e))
  /\ outcome w (ProcessTransaction t w) = Some Failed
  /\ In (mkLog ERROR "Failed to create transaction")
        (emitted w (snd (ProcessTransaction t w)))
  /\ store (snd (ProcessTransaction t w)) = s2.
Proof.
  intros V E C. rewrite (ProcessTransaction_creates t w s1 s2 t' (Some e) V E C).
  cbn [fst snd outcome store]. rewrite wrapped_is_not_the_validation_error.
  repeat split.
  unfold emitted. cbn [logs]. rewrite skipn_length_app.
  apply in_or_app. right. left. reflexivity.
Qed.

End CreateFailure.

(** ** The PostgreSQL repository *)

Section PostgresFacts.

Import postgres.

Context {columns : Columns}.

Lemma entityToModel_ID (t : Transaction) :
  postgres.ID (entityToModel t) = entities.ID t.
Proof. unfold entityToModel. destruct (PaymentMethod_ t); reflexivity. Qed.

Lemma entityToModel_TransactionID (t : Transaction) :
  postgres.TransactionID (entityToModel t) = entities.TransactionID t.
Proof. unfold entityToModel. destruct (PaymentMethod_ t); reflexivity. Qed.

Lemma count_absent (tid : string) (rows : list TransactionModel) :
  has_transaction_id tid rows = false -> count_transaction_id tid rows = 0.
Proof.
  unfold has_transaction_id, count_transaction_id.
  induction rows as [|r rows IH]; simpl; auto.
  destruct (postgres.TransactionID r =? tid)%string; simpl; [discriminate|auto].
Qed.

Lemma count_snoc (tid : string) (rows : list TransactionModel)
  (row : TransactionModel) :
  count_transaction_id tid (rows ++ [row])
  = count_transaction_id tid rows
    + (if (postgres.TransactionID row =? tid)%string then 1 else 0).
Proof.
  unfold count_transaction_id. rewrite filter_app, length_app. simpl.
  destruct (postgres.TransactionID row =? tid)%string; simpl; lia.
Qed.

Lemma id_no_longer_than_all (id : string) (rows : list TransactionModel) :
  has_id id rows = true ->
  (String.length id
   <= String.length
        (fold_right (fun r acc => String.append (postgres.ID r) acc)
           EmptyString rows))%nat.
Proof.
  unfold has_id. induction rows as [|r rows IH]; simpl; [discriminate|].
  rewrite string_length_append.
  destruct (postgres.ID r =? id)%string eqn:E; simpl.
  - apply String.eqb_eq in E. subst. lia.
  - intros H. apply IH in H. lia.
Qed.

(** The generated key is the key of no row. *)
Lemma gen_random_uuid_fresh (rows : list TransactionModel) :
  has_id (gen_random_uuid rows) rows = false.
Proof.
  destruct (has_id (gen_random_uuid rows) rows) eqn:E; auto.
  apply id_no_longer_than_all in E. unfold gen_random_uuid in E.
  rewrite string_length_append in E. simpl in E. lia.
Qed.

(** On an undisturbed database the existence check counts the rows. *)
Lemma Exists_quiet (tid : string) (rows : list TransactionModel) :
  postgres.Exists tid (mkDB rows [])
  = ((0 <? count_transaction_id tid rows, None), mkDB rows []).
Proof. reflexivity. Qed.

(** On an undisturbed database a record whose keys are free is inserted. *)
Lemma Create_quiet (t : Transaction) (rows : list TransactionModel) :
  has_transaction_id (entities.TransactionID t) rows = false ->
  entities.ID t = "" \/ has_id (entities.ID t) rows = false ->
  let id := if (entities.ID t =? "")%string then gen_random_uuid rows
            else entities.ID t in
  postgres.Create t (mkDB rows [])
  = ((set_ID t id, None),
     mkDB (rows ++ [stored (entityToModel t) id (List.length rows)]) []).
Proof.
  intros Htid Hid id.
  assert (F : has_id id rows = false).
  { subst id. destruct (entities.ID t =? "")%string eqn:E.
    - apply gen_random_uuid_fresh.
    - destruct Hid as [Hid|Hid]; auto. rewrite Hid in E. discriminate. }
  unfold postgres.Create, gorm_Create. cbn [next pending table arrive].
  rewrite entityToModel_ID, entityToModel_TransactionID.
  fold id. rewrite F, Htid. reflexivity.
Qed.

End PostgresFacts.

(** ** Idempotence of [ProcessTransaction] over PostgreSQL *)

(** C1.  Take a valid record [r] and a second valid record [r2] with the
    same transaction id, and an undisturbed database that holds no row for
    that transaction id and in which the key of [r] is free.  Processing
    [r] and then [r2] gives Written and then Skipped; the second run returns
    no error and invokes no [Create]; the table ends with exactly one row
    for the transaction id. *)
Theorem ProcessTransaction_idempotent {columns : postgres.Columns}
  (r r2 : Transaction) (w : World postgres.DB) :
  IsValid r = true ->
  IsValid r2 = true ->
  TransactionID r2 = TransactionID r ->
  postgres.pending (store w) = [] ->
  postgres.has_transaction_id (TransactionID r) (postgres.table (store w))
  = false ->
  ID r = "" \/ postgres.has_id (ID r) (postgres.table (store w)) = false ->
  let run1 := ProcessTransaction r w in
  let run2 := ProcessTransaction r2 (snd run1) in
  outcome w run1 = Some Written
  /\ outcome (snd run1) run2 = Some Skipped
  /\ returned_error run2 = Some None
  /\ existsb is_create (made (snd run1) (snd run2)) = false
  /\ postgres.count_transaction_id (TransactionID r)
       (postgres.table (store (snd run2))) = 1.
Proof.
  intros V V2 Etid Hq Htid Hid.
  destruct w as [[rows pend] lg cl wl tk]. cbn in Hq, Htid, Hid. subst pend.
  pose proof (Create_quiet r rows Htid Hid) as C. cbv zeta in C.
  set (id := if (ID r =? "")%string then postgres.gen_random_uuid rows
             else ID r) in C.
  set (row := postgres.stored (postgres.entityToModel r) id (List.length rows))
    in C.
  assert (E1 : Exists (TransactionID r)
                 (store (mkWorld (postgres.mkDB rows []) lg cl wl tk))
               = ((false, None), postgres.mkDB rows [])).
  { cbn [store Exists postgres.transactionRepository].
    rewrite Exists_quiet, (count_absent _ _ Htid). reflexivity. }
  intros run1 run2.
  assert (R1 : run1
               = (Returns (set_ID r id, None),
                  mkWorld (postgres.mkDB (rows ++ [row]) [])
                    (lg
                     ++ (if (TransactionStatus_ r =? TransactionStatusFailed)%string
                            && negb (BalanceBefore r =? BalanceAfter r)%float
                         then [warning] else [])
                     ++ [mkLog INFO "Transaction processed successfully"])
                    (cl ++ [CallExists (TransactionID r); CallCreate r])
                    wl tk)).
  { subst run1.
    apply (ProcessTransaction_creates r _ _ _ (set_ID r id) None V E1 C). }
  assert (N : postgres.count_transaction_id (TransactionID r) (rows ++ [row])
              = 1).
  { rewrite count_snoc, (count_absent _ _ Htid). subst row. cbn.
    rewrite entityToModel_TransactionID, String.eqb_refl. reflexivity. }
  assert (R2 : run2
               = (Returns (r2, None),
                  mkWorld (postgres.mkDB (rows ++ [row]) [])
                    ((lg
                      ++ (if (TransactionStatus_ r =? TransactionStatusFailed)%string
                             && negb (BalanceBefore r =? BalanceAfter r)%float
                          then [warning] else [])
                      ++ [mkLog INFO "Transaction processed successfully"])
                     ++ [mkLog INFO "Transaction already exists, skipping"])
                    ((cl ++ [CallExists (TransactionID r); CallCreate r])
                     ++ [CallExists (TransactionID r2)])
                    wl tk)).
  { subst run2. rewrite R1. cbn [snd].
    apply ProcessTransaction_skips_existing; auto.
    cbn [store Exists postgres.transactionRepository].
    rewrite Exists_quiet, Etid, N. reflexivity. }
  rewrite R2, R1. unfold outcome, made, returned_error.
  cbn [calls snd store postgres.table].
  rewrite !skipn_length_app. cbn. auto.
Qed.

(** A run of the theorem above: the top-up of the use-case tests, delivered
    twice to an empty database. *)
Lemma ProcessTransaction_idempotent_topup :
  let run1 := ProcessTransaction samples.topup samples.fresh in
  let run2 := ProcessTransaction samples.topup_again (snd run1) in
  outcome samples.fresh run1 = Some Written
  /\ outcome (snd run1) run2 = Some Skipped
  /\ returned_error run2 = Some None
  /\ existsb is_create (made (snd run1) (snd run2)) = false
  /\ postgres.count_transaction_id "trans-123"
       (postgres.table (store (snd run2))) = 1.
Proof.
  apply (ProcessTransaction_idempotent samples.topup samples.topup_again
           samples.fresh); try reflexivity.
  left. reflexivity.
Defined.

(** ** What [Create] does to the record it is given *)

(** C10.  When the repository's [Create] succeeds, the record behind the
    pointer is the input with its [ID] overwritten by the key under which the
    row was stored, the last row of the table (the input's own key when it
    had one, the generated one otherwise), and with every other field as it
    was. *)
Theorem Create_overwrites_ID_only {columns : postgres.Columns}
  (t t' : Transaction) (db db' : postgres.DB) :
  postgres.Create t db = ((t', None), db') ->
  exists (id : string) (rows : list postgres.TransactionModel)
    (row : postgres.TransactionModel),
    postgres.table db' = (rows ++ [row])%list
    /\ postgres.ID row = id
    /\ postgres.TransactionID row = TransactionID t
    /\ (ID t <> "" -> id = ID t)
    /\ (ID t = "" -> id = postgres.gen_random_uuid rows)
    /\ t' = set_ID t id
    /\ ID t' = id
    /\ UserID t' = UserID t
    /\ AccountID t' = AccountID t
    /\ TransactionID t' = TransactionID t
    /\ TransactionType_ t' = TransactionType_ t
    /\ TransactionStatus_ t' = TransactionStatus_ t
    /\ Amount t' = Amount t
    /\ BalanceBefore t' = BalanceBefore t
    /\ BalanceAfter t' = BalanceAfter t
    /\ Currency t' = Currency t
    /\ Description t' = Description t
    /\ ExternalReference t' = ExternalReference t
    /\ PaymentMethod_ t' = PaymentMethod_ t
    /\ Metadata t' = Metadata t
    /\ IsAccessibleFromExternal t' = IsAccessibleFromExternal t
    /\ CreatedAt t' = CreatedAt t
    /\ UpdatedAt t' = UpdatedAt t.
Proof.
  unfold postgres.Create, postgres.gorm_Create.
  destruct (postgres.next db) as [i db1]. intros H.
  assert (G : exists (id : string) (rows : list postgres.TransactionModel)
              (row : postgres.TransactionModel),
            postgres.table db' = (rows ++ [row])%list
            /\ postgres.ID row = id
            /\ postgres.TransactionID row = TransactionID t
            /\ (ID t <> "" -> id = ID t)
            /\ (ID t = "" -> id = postgres.gen_random_uuid rows)
            /\ t' = set_ID t id).
  { destruct i as [|e|row]; try discriminate;
      match type of H with
      | context [postgres.has_id ?x ?r] => set (id := x) in *; set (rows := r) in *
      end;
      (destruct (postgres.has_id id rows); [discriminate|]);
      (destruct (postgres.has_transaction_id _ rows); [discriminate|]);
      cbn in H; inversion H; subst;
      exists id, rows,
        (postgres.stored (postgres.entityToModel t) id (List.length rows));
      cbn [postgres.table postgres.stored postgres.ID postgres.TransactionID];
      rewrite entityToModel_TransactionID;
      subst id; rewrite entityToModel_ID; repeat split;
      try (intros Hne; apply String.eqb_neq in Hne; rewrite Hne; reflexivity);
      try (intros ->; reflexivity). }
  destruct G as (id & rows & row & Ht & Hi & Hk & Hne & He & ->).
  exists id, rows, row. repeat split; auto.
Qed.

(** On a failure [Create] leaves the record as it was. *)
Lemma Create_failure_keeps_record {columns : postgres.Columns}
  (t t' : Transaction) (e : error) (db db' : postgres.DB) :
  postgres.Create t db = ((t', Some e), db') -> t' = t.
Proof.
  unfold postgres.Create, postgres.gorm_Create.
  destruct (postgres.next db) as [i db1].
  destruct i;
    repeat match goal with
           | |- context [if ?b then _ else _] => destruct b
           end; cbn; intros H; inversion H; reflexivity.
Qed.

(** A run of the theorem above: the top-up stored in an empty table. *)
Lemma Create_overwrites_ID_only_topup :
  exists (id : string) (rows : list postgres.TransactionModel)
    (row : postgres.TransactionModel),
    postgres.table (snd (postgres.Create samples.topup samples.empty_db))
    = (rows ++ [row])%list
    /\ postgres.ID row = id
    /\ postgres.TransactionID row = TransactionID samples.topup
    /\ (ID samples.topup <> "" -> id = ID samples.topup)
    /\ (ID samples.topup = "" -> id = postgres.gen_random_uuid rows)
    /\ set_ID samples.topup "u" = set_ID samples.topup id
    /\ ID (set_ID samples.topup "u") = id
    /\ UserID (set_ID samples.topup "u") = UserID samples.topup
    /\ AccountID (set_ID samples.topup "u") = AccountID samples.topup
    /\ TransactionID (set_ID samples.topup "u") = TransactionID samples.topup
    /\ TransactionType_ (set_ID samples.topup "u")
       = TransactionType_ samples.topup
    /\ TransactionStatus_ (set_ID samples.topup "u")
       = TransactionStatus_ samples.topup
    /\ Amount (set_ID samples.topup "u") = Amount samples.topup
    /\ BalanceBefore (set_ID samples.topup "u") = BalanceBefore samples.topup
    /\ BalanceAfter (set_ID samples.topup "u") = BalanceAfter samples.topup
    /\ Currency (set_ID samples.topup "u") = Currency samples.topup
    /\ Description (set_ID samples.topup "u") = Description samples.topup
    /\ ExternalReference (set_ID samples.topup "u")
       = ExternalReference samples.topup
    /\ PaymentMethod_ (set_ID samples.topup "u") = PaymentMethod_ samples.topup
    /\ Metadata (set_ID samples.topup "u") = Metadata samples.topup
    /\ IsAccessibleFromExternal (set_ID samples.topup "u")
       = IsAccessibleFromExternal samples.topup
    /\ CreatedAt (set_ID samples.topup "u") = CreatedAt samples.topup
    /\ UpdatedAt (set_ID samples.topup "u") = UpdatedAt samples.topup.
Proof.
  apply (Create_overwrites_ID_only samples.topup (set_ID samples.topup "u")
           samples.empty_db
           (snd (postgres.Create samples.topup samples.empty_db))).
  reflexivity.
Defined.

(** ** The balance warning *)

Section BalanceWarning.

Import postgres.

Context {columns : Columns}.

Lemma blind_entityToModel (t : Transaction) (before after : float)
  (id : string) (n : nat) :
  blind (stored (entityToModel (with_balances t before after)) id n)
  = blind (stored (entityToModel t) id n).
Proof.
  unfold entityToModel. cbn. destruct (PaymentMethod_ t); reflexivity.
Qed.

(** [Create] looks at the keys of the record, not at its balances. *)
Lemma Create_blind (t : Transaction) (before after : float) (db : DB) :
  snd (fst (postgres.Create (with_balances t before after) db))
  = snd (fst (postgres.Create t db))
  /\ map blind (table (snd (postgres.Create (with_balances t before after) db)))
     = map blind (table (snd (postgres.Create t db)))
  /\ pending (snd (postgres.Create (with_balances t before after) db))
     = pending (snd (postgres.Create t db)).
Proof.
  unfold postgres.Create, gorm_Create.
  destruct (next db) as [i db1].
  rewrite !entityToModel_ID, !entityToModel_TransactionID.
  change (entities.ID (with_balances t before after)) with (entities.ID t).
  change (entities.TransactionID (with_balances t before after))
    with (entities.TransactionID t).
  destruct i as [|e|row]; cbn [fst snd]; auto;
    match goal with
    | |- context [has_id ?x ?r] => destruct (has_id x r)
    end; cbn [fst snd table pending]; auto;
    match goal with
    | |- context [has_transaction_id ?x ?r] => destruct (has_transaction_id x r)
    end; cbn [fst snd table pending]; auto;
    rewrite !map_app; cbn [map]; rewrite blind_entityToModel; auto.
Qed.

End BalanceWarning.

Lemma ProcessTransaction_invalid {S} {transactionRepo : TransactionRepository S}
  (t : Transaction) (w : World S) :
  IsValid t = false ->
  ProcessTransaction t w
  = (Returns (t, Some (ErrNew "invalid transaction data")), w).
Proof. intros H. unfold ProcessTransaction. rewrite H. reflexivity. Qed.

(** C7, as the code has it.  Take a record whose status is FAILED and whose
    balances differ, and compare its run with the run of the same record
    under any other pair of balances, equal ones in particular.  The warning
    is emitted exactly when the run gets past the existence check, that is
    when the record is valid and the check answers without error that there
    is no row; a record that is rejected or skipped, or whose check fails,
    gets no warning.  In every case the two runs have the same outcome and
    the same returned error, invoke the same repository methods, leave the
    same table up to the balance columns of the row written, and emit the
    same diagnostics apart from warnings. *)
Theorem failed_balance_warning_is_additive {columns : postgres.Columns}
  (t : Transaction) (w : World postgres.DB) (before after : float) :
  TransactionStatus_ t = TransactionStatusFailed ->
  (BalanceBefore t =? BalanceAfter t)%float = false ->
  let run := ProcessTransaction t w in
  let run0 := ProcessTransaction (with_balances t before after) w in
  filter is_warning (emitted w (snd run))
  = (if reaches_create t w then [warning] else [])
  /\ outcome w run = outcome w run0
  /\ returned_error run = returned_error run0
  /\ map blind_call (made w (snd run)) = map blind_call (made w (snd run0))
  /\ map blind (postgres.table (store (snd run)))
     = map blind (postgres.table (store (snd run0)))
  /\ postgres.pending (store (snd run)) = postgres.pending (store (snd run0))
  /\ filter not_warning (emitted w (snd run))
     = filter not_warning (emitted w (snd run0)).
Proof.
  intros F D run run0. subst run run0.
  set (t0 := with_balances t before after).
  assert (V0 : IsValid t0 = IsValid t) by reflexivity.
  unfold reaches_create.
  destruct (IsValid t) eqn:V.
  2:{ rewrite (ProcessTransaction_invalid t w V),
        (ProcessTransaction_invalid t0 w V0).
      cbn [snd outcome returned_error andb].
      rewrite emitted_nothing, made_nothing. repeat split. }
  change (TransactionID t0) with (TransactionID t) in *.
  destruct (Exists (TransactionID t) (store w)) as [[b err] s1] eqn:E.
  cbn [andb fst].
  destruct err as [e|].
  { rewrite (ProcessTransaction_exists_error t w e b s1 V E),
      (ProcessTransaction_exists_error t0 w e b s1 V0 E).
    unfold outcome, returned_error, made, emitted.
    cbn [snd logs calls store]. rewrite !skipn_length_app.
    destruct b; repeat split. }
  destruct b.
  { rewrite (ProcessTransaction_skips_existing t w s1 V E),
      (ProcessTransaction_skips_existing t0 w s1 V0 E).
    unfold outcome, returned_error, made, emitted.
    cbn [snd logs calls store]. rewrite !skipn_length_app.
    repeat split. }
  destruct (Create t s1) as [[t1 e1] s2] eqn:C1.
  destruct (Create t0 s1) as [[t2 e2] s3] eqn:C2.
  destruct (Create_blind t before after s1) as (He & Hm & Hp).
  change (postgres.Create (with_balances t before after) s1)
    with (Create t0 s1) in He, Hm, Hp.
  change (postgres.Create t s1) with (Create t s1) in He, Hm, Hp.
  rewrite C1, C2 in He, Hm, Hp. cbn [fst snd] in He, Hm, Hp. subst e2.
  rewrite (ProcessTransaction_creates t w s1 s2 t1 e1 V E C1),
    (ProcessTransaction_creates t0 w s1 s3 t2 e1 V0 E C2).
  unfold outcome, returned_error, made, emitted.
  cbn [snd logs calls store]. rewrite !skipn_length_app.
  rewrite F, D. cbn [negb andb]. rewrite String.eqb_refl. cbn [andb app].
  change (TransactionStatus_ t0) with (TransactionStatus_ t). rewrite F.
  rewrite String.eqb_refl. cbn [andb].
  rewrite !filter_app.
  destruct (negb (BalanceBefore t0 =? BalanceAfter t0)%float);
    destruct e1; cbn; repeat split; auto.
Qed.

(** ** Translation of a Kafka message *)

Section TranslationFacts.

Import deliveries.

Context {S : Type}.

(** An array with fewer than six elements is refused with an error, and
    nothing in it is looked at. *)
Lemma parseTimestamp_short (l : list JSON) :
  (List.length l < 6)%nat ->
  parseTimestamp l
  = Returns (TimeZero,
             Some (ErrNew (String.append "invalid timestamp array length: "
                             (itoa (List.length l))))).
Proof.
  intros H. unfold parseTimestamp.
  apply Nat.ltb_lt in H. rewrite H. reflexivity.
Qed.

Lemma is_number_inv (v : JSON) :
  is_number v = true -> exists f, v = JNumber f.
Proof. destruct v; try discriminate. eauto. Qed.

(** When no type assertion fails [parseTimestamp] returns. *)
Lemma parseTimestamp_returns (l : list JSON) :
  assertions_hold l = true ->
  exists (tm : Time) (err : option error), parseTimestamp l = Returns (tm, err).
Proof.
  unfold assertions_hold. intros H. apply orb_true_iff in H.
  destruct H as [H|H].
  - apply Nat.ltb_lt in H. rewrite (parseTimestamp_short l H). eauto.
  - destruct (Nat.ltb_spec (List.length l) 6) as [L|L].
    { rewrite (parseTimestamp_short l L). eauto. }
    destruct l as [|a [|b [|c [|d [|e [|f rest]]]]]]; cbn in L; try lia.
    cbn [firstn forallb] in H.
    repeat match type of H with
           | (_ && _)%bool = true =>
               let H1 := fresh "N" in
               apply andb_true_iff in H; destruct H as [H1 H];
               apply is_number_inv in H1; destruct H1 as [? ->]
           end.
    destruct rest as [|g rest].
    + unfold parseTimestamp. cbn. eauto.
    + cbn [firstn forallb] in H. apply andb_true_iff in H.
      destruct H as [N _]. apply is_number_inv in N. destruct N as [? ->].
      unfold parseTimestamp. cbn. eauto.
Qed.

(** When a type assertion fails [parseTimestamp] panics. *)
Lemma parseTimestamp_panics (l : list JSON) :
  assertions_hold l = false -> exists v, parseTimestamp l = Panics v.
Proof.
  unfold assertions_hold. intros H. apply orb_false_iff in H.
  destruct H as [L H]. unfold parseTimestamp. rewrite L.
  apply Nat.ltb_ge in L.
  destruct l as [|a [|b [|c [|d [|e [|f rest]]]]]]; cbn in L; try lia.
  clear L. cbn [firstn forallb] in H. unfold component, and_then.
  cbn [nth List.length].
  destruct a; cbn; eauto. destruct b; cbn; eauto. destruct c; cbn; eauto.
  destruct d; cbn; eauto. destruct e; cbn; eauto. destruct f; cbn; eauto.
  destruct rest as [|g rest]; [discriminate|].
  cbn in H. destruct g; cbn; eauto. discriminate.
Qed.

(** One timestamp: the instant parsed, or on an error a warning and the next
    reading of the clock.  Store and repository calls are not touched. *)
Lemma timestampOrNow_returns (l : list JSON) (warn : string) (w : World S) :
  assertions_hold l = true ->
  exists (tm : Time) (w' : World S),
    timestampOrNow l warn w = (Returns tm, w')
    /\ ((List.length l < 6)%nat ->
        tm = wall w (ticks w)
        /\ w' = mkWorld (store w) (logs w ++ [mkLog WARN warn]) (calls w)
                  (wall w) (Datatypes.S (ticks w))).
Proof.
  intros H. unfold timestampOrNow, bind, lift.
  destruct (Nat.ltb_spec (List.length l) 6) as [L|L].
  - rewrite (parseTimestamp_short l L).
    eexists. eexists. split; [reflexivity|]. intros _. split; reflexivity.
  - destruct (parseTimestamp_returns l H) as (tm & err & ->).
    destruct err; eexists; eexists; (split; [reflexivity|]); intros C; lia.
Qed.

(** The translation returns whenever no type assertion on the timestamps
    fails, and what it returns is the record built by [buildEntity]. *)
Lemma kafkaMessageToEntity_returns (msg : KafkaTransactionMessage)
  (w : World S) :
  assertions_hold (CreatedAt msg) = true ->
  assertions_hold (UpdatedAt msg) = true ->
  exists (createdAt updatedAt : Time) (w' : World S),
    kafkaMessageToEntity msg w
    = (Returns (buildEntity msg createdAt updatedAt, None), w')
    /\ ((List.length (CreatedAt msg) < 6)%nat -> createdAt = wall w (ticks w)).
Proof.
  intros Hc Hu. unfold kafkaMessageToEntity, bind.
  destruct (timestampOrNow_returns (CreatedAt msg)
              "Failed to parse createdAt, using current time" w Hc)
    as (c & w1 & -> & Hnow).
  destruct (timestampOrNow_returns (UpdatedAt msg)
              "Failed to parse updatedAt, using current time" w1 Hu)
    as (u & w2 & -> & _).
  exists c, u, w2. split; [reflexivity|]. intros L. apply Hnow; auto.
Qed.

(** It panics as soon as a type assertion on [createdAt] fails. *)
Lemma kafkaMessageToEntity_panics (msg : KafkaTransactionMessage)
  (w : World S) :
  assertions_hold (CreatedAt msg) = false ->
  exists v, kafkaMessageToEntity msg w = (Panics v, w).
Proof.
  intros H. unfold kafkaMessageToEntity, timestampOrNow, bind, lift.
  destruct (parseTimestamp_panics _ H) as (v & ->). eauto.
Qed.

End TranslationFacts.

(** The well-behaved half of the timestamp fallback: a [createdAt] with fewer
    than six elements makes the translation warn and take the reading of the
    clock for that field; every other field is what the translation builds
    for any message. *)
Lemma kafkaMessageToEntity_short_createdAt {S}
  (msg : deliveries.KafkaTransactionMessage) (w : World S) :
  (List.length (deliveries.CreatedAt msg) < 6)%nat ->
  assertions_hold (deliveries.UpdatedAt msg) = true ->
  exists (updatedAt : Time) (w' : World S),
    deliveries.kafkaMessageToEntity msg w
    = (Returns (deliveries.buildEntity msg (wall w (ticks w)) updatedAt, None),
       w').
Proof.
  intros L Hu.
  assert (Hc : assertions_hold (deliveries.CreatedAt msg) = true).
  { unfold assertions_hold. apply Nat.ltb_lt in L. rewrite L. reflexivity. }
  destruct (kafkaMessageToEntity_returns msg w Hc Hu) as (c & u & w' & E & N).
  rewrite (N L) in E. eauto.
Qed.

(** C4, where the code departs from it.  The message whose [createdAt] is
    [["2024", 1, 1, 12, 0, 0]], six elements of which the first is a string,
    is not translated: the unchecked type assertion of [parseTimestamp]
    panics, no clock reading is substituted and no record is produced. *)
Theorem kafkaMessageToEntity_string_year_panics {S} (w : World S) :
  assertions_hold (deliveries.CreatedAt samples.string_year_message) = false
  /\ deliveries.kafkaMessageToEntity samples.string_year_message w
     = (Panics "interface conversion: interface {} is string, not float64", w).
Proof. split; reflexivity. Qed.

(** C5.  Whenever the translation returns, which it does unless a type
    assertion on a timestamp fails, the amount of the record is the float64
    quotient of the message's amount by 100: the IEEE 754 division, that is
    the exact quotient rounded once to binary64. *)
Theorem kafkaMessageToEntity_amount {S}
  (msg : deliveries.KafkaTransactionMessage) (w : World S) :
  assertions_hold (deliveries.CreatedAt msg) = true ->
  assertions_hold (deliveries.UpdatedAt msg) = true ->
  exists (t : Transaction) (w' : World S),
    deliveries.kafkaMessageToEntity msg w = (Returns (t, None), w')
    /\ Amount t = (deliveries.Amount msg / 100)%float
    /\ Prim2SF (Amount t)
       = SF64div (Prim2SF (deliveries.Amount msg)) (Prim2SF 100%float).
Proof.
  intros Hc Hu.
  destruct (kafkaMessageToEntity_returns msg w Hc Hu) as (c & u & w' & E & _).
  exists (deliveries.buildEntity msg c u), w'.
  split; [exact E|]. split; [reflexivity|]. cbn [deliveries.buildEntity Amount].
  apply div_spec.
Qed.

(** A run of the theorem above: 15025 minor units become 150.25. *)
Lemma kafkaMessageToEntity_amount_payment :
  exists (t : Transaction) (w' : World postgres.DB),
    deliveries.kafkaMessageToEntity samples.payment_message samples.fresh
    = (Returns (t, None), w')
    /\ Amount t = (15025 / 100)%float
    /\ Prim2SF (Amount t) = SF64div (Prim2SF 15025%float) (Prim2SF 100%float).
Proof.
  apply (kafkaMessageToEntity_amount samples.payment_message samples.fresh);
    reflexivity.
Defined.

(** C6.  Whenever the translation returns, an empty description in the
    message is an absent description in the record and a non-empty one is
    carried over as present; the same holds for the payment method. *)
Theorem kafkaMessageToEntity_optional_text {S}
  (msg : deliveries.KafkaTransactionMessage) (w : World S) :
  assertions_hold (deliveries.CreatedAt msg) = true ->
  assertions_hold (deliveries.UpdatedAt msg) = true ->
  exists (t : Transaction) (w' : World S),
    deliveries.kafkaMessageToEntity msg w = (Returns (t, None), w')
    /\ (deliveries.Description msg = "" -> Description t = None)
    /\ (deliveries.Description msg <> "" ->
        Description t = Some (deliveries.Description msg))
    /\ (deliveries.PaymentMethod msg = "" -> PaymentMethod_ t = None)
    /\ (deliveries.PaymentMethod msg <> "" ->
        PaymentMethod_ t = Some (deliveries.PaymentMethod msg)).
Proof.
  intros Hc Hu.
  destruct (kafkaMessageToEntity_returns msg w Hc Hu) as (c & u & w' & E & _).
  exists (deliveries.buildEntity msg c u), w'.
  split; [exact E|]. cbn [deliveries.buildEntity Description PaymentMethod_].
  repeat split.
  - intros ->. reflexivity.
  - intros H. apply String.eqb_neq in H. rewrite H. reflexivity.
  - intros ->. reflexivity.
  - intros H. apply String.eqb_neq in H. rewrite H. reflexivity.
Qed.

(** A run of the theorem above, on the message with blank optional fields. *)
Lemma kafkaMessageToEntity_optional_text_blank :
  exists (t : Transaction) (w' : World postgres.DB),
    deliveries.kafkaMessageToEntity samples.blank_message samples.fresh
    = (Returns (t, None), w')
    /\ (deliveries.Description samples.blank_message = "" ->
        Description t = None)
    /\ (deliveries.Description samples.blank_message <> "" ->
        Description t = Some (deliveries.Description samples.blank_message))
    /\ (deliveries.PaymentMethod samples.blank_message = "" ->
        PaymentMethod_ t = None)
    /\ (deliveries.PaymentMethod samples.blank_message <> "" ->
        PaymentMethod_ t
        = Some (deliveries.PaymentMethod samples.blank_message)).
Proof.
  apply (kafkaMessageToEntity_optional_text samples.blank_message
           samples.fresh); reflexivity.
Defined.

(** The fields the rules above leave alone pass through unchanged. *)
Lemma buildEntity_passthrough (msg : deliveries.KafkaTransactionMessage)
  (c u : Time) :
  let t := deliveries.buildEntity msg c u in
  ID t = deliveries.ID msg
  /\ UserID t = deliveries.UserID msg
  /\ AccountID t = deliveries.AccountID msg
  /\ TransactionID t = deliveries.TransactionID msg
  /\ TransactionType_ t = deliveries.TransactionType msg
  /\ TransactionStatus_ t = deliveries.TransactionStatus msg
  /\ BalanceBefore t = deliveries.BalanceBefore msg
  /\ BalanceAfter t = deliveries.BalanceAfter msg
  /\ Currency t = deliveries.Currency msg
  /\ ExternalReference t = deliveries.ExternalReference msg
  /\ Metadata t = deliveries.Metadata msg
  /\ IsAccessibleFromExternal t = deliveries.IsAccessibleFromExternal msg
  /\ CreatedAt t = c /\ UpdatedAt t = u.
Proof. cbn. repeat split. Qed.

(** ** The consumer loop *)

Section ConsumerFacts.

Import consumer.

Context {S : Type}.

Lemma loop_acknowledges (handler : @MessageHandler S)
  (script : list Iteration) :
  forall w : World S,
    let evs := snd (fst (loop handler script w)) in
    Acknowledged evs
    /\ committed evs = handled_to_return evs
    /\ handled evs = fetched evs.
Proof.
  induction script as [|it rest IH]; intros w; cbn zeta.
  - cbn. repeat split. constructor.
  - destruct it as [cause|err|m cerr]; cbn [loop].
    + cbn. repeat split. constructor.
    + destruct (errors_Is err ErrCanceled).
      * cbn. repeat split. constructor.
      * specialize (IH (logged ERROR "Failed to fetch message" w)).
        destruct (loop handler rest (logged ERROR "Failed to fetch message" w))
          as [[r evs] w2].
        cbn in IH |- *. destruct IH as (A & C & H).
        repeat split; auto. constructor; auto.
    + destruct (handler (Value m) w) as [[herr|v] w1].
      * match goal with
        | |- context [loop handler rest ?w3] =>
            specialize (IH w3); destruct (loop handler rest w3) as [[r evs] w4]
        end.
        cbn in IH |- *. destruct IH as (A & C & H).
        repeat split; try congruence. constructor; auto.
      * cbn. repeat split. constructor.
Qed.



(** With a handler that always returns, the messages committed are the
    messages delivered, whatever the handler returned for them. *)
Lemma loop_commits_delivered (handler : @MessageHandler S)
  (script : list Iteration) :
  (forall v w, exists herr w', handler v w = (Returns herr, w')) ->
  forall w : World S,
    committed (snd (fst (loop handler script w))) = delivered script.
Proof.
  intros Hret. induction script as [|it rest IH]; intros w; auto.
  destruct it as [cause|err|m cerr]; cbn [loop delivered]; auto.
  - destruct (errors_Is err ErrCanceled); auto.
    specialize (IH (logged ERROR "Failed to fetch message" w)).
    destruct (loop handler rest (logged ERROR "Failed to fetch message" w))
      as [[r evs] w2]. exact IH.
  - destruct (Hret (Value m) w) as (herr & w1 & ->).
    match goal with
    | |- context [loop handler rest ?w3] =>
        specialize (IH w3); destruct (loop handler rest w3) as [[r evs] w4]
    end.
    cbn in IH |- *. congruence.
Qed.

(** With a handler that always returns, how the loop ends depends on the
    outside alone: it returns [ctx.Err()] when the context is done at a
    [select], nil when a fetch fails with [context.Canceled], and goes on
    otherwise. *)
Lemma loop_exit (handler : @MessageHandler S) (script : list Iteration) :
  (forall v w, exists herr w', handler v w = (Returns herr, w')) ->
  forall w : World S, fst (fst (loop handler script w)) = exit_of script.
Proof.
  intros Hret. induction script as [|it rest IH]; intros w; auto.
  destruct it as [cause|err|m cerr]; cbn [loop exit_of]; auto.
  - destruct (errors_Is err ErrCanceled); auto.
    specialize (IH (logged ERROR "Failed to fetch message" w)).
    destruct (loop handler rest (logged ERROR "Failed to fetch message" w))
      as [[r evs] w2]. exact IH.
  - destruct (Hret (Value m) w) as (herr & w1 & ->).
    match goal with
    | |- context [loop handler rest ?w3] =>
        specialize (IH w3); destruct (loop handler rest w3) as [[r evs] w4]
    end.
    exact IH.
Qed.

(** C9, where the code departs from it.  When the context is already
    cancelled as the [select] looks at it, [Consume] stops, but what it
    returns is [ctx.Err()], the error [context.Canceled], not nil; when the
    same cancellation interrupts the fetch instead, it returns nil. *)
Theorem Consume_cancelled_at_select (handler : @MessageHandler S)
  (rest : list Iteration) (w : World S) :
  fst (fst (Consume handler (SelectDone Canceled :: rest) w))
  = Exited (Returns (Some ErrCanceled))
  /\ fst (fst (Consume handler (SelectDone Canceled :: rest) w))
     <> Exited (Returns None)
  /\ fst (fst (Consume handler (FetchFails ErrCanceled :: rest) w))
     = Exited (Returns None).
Proof.
  unfold Consume. cbn [loop fst ctx_Err errors_Is].
  repeat split. discriminate.
Qed.

(** The sibling path: a cancellation that interrupts the fetch makes
    [Consume] return nil. *)
Lemma Consume_cancelled_in_fetch (handler : @MessageHandler S)
  (rest : list Iteration) (w : World S) (err : error) :
  errors_Is err ErrCanceled = true ->
  fst (fst (Consume handler (FetchFails err :: rest) w))
  = Exited (Returns None).
Proof. intros H. unfold Consume. cbn [loop]. rewrite H. reflexivity. Qed.

(** Either way no message is fetched after the cancellation. *)
Lemma Consume_stops_fetching (handler : @MessageHandler S)
  (rest : list Iteration) (w : World S) (cause : Cause) :
  fetched (snd (fst (Consume handler (SelectDone cause :: rest) w))) = []
  /\ fetched (snd (fst (Consume handler (FetchFails ErrCanceled :: rest) w)))
     = [].
Proof. split; reflexivity. Qed.

End ConsumerFacts.

(** A run of the loop: the handler fails on both messages, and both are
    committed, the second although its commit fails too; the cancellation seen
    at the [select] then ends the run with [context.Canceled]. *)
Example Consume_failing_handler :
  fst (consumer.Consume samples.failing_handler
         [consumer.FetchOk samples.m1 None;
          consumer.FetchFails ErrConnDone;
          consumer.FetchOk samples.m2 (Some ErrConnDone);
          consumer.SelectDone consumer.Canceled] samples.fresh)
  = (consumer.Exited (Returns (Some ErrCanceled)),
     [consumer.EvFetched samples.m1;
      consumer.EvHandled samples.m1
        (Returns (Some (ErrNew "failed to process transaction")));
      consumer.EvCommitted samples.m1 None;
      consumer.EvFetchFailed ErrConnDone; consumer.EvSlept;
      consumer.EvFetched samples.m2;
      consumer.EvHandled samples.m2
        (Returns (Some (ErrNew "failed to process transaction")));
      consumer.EvCommitted samples.m2 (Some ErrConnDone)]).
Proof. reflexivity. Qed.

(** ** Runs on the sample data *)

(** A run of C2: the failed payment with a zero amount. *)
Lemma ProcessTransaction_rejects_zero_amount :
  ProcessTransaction samples.failed_payment_zero_amount samples.fresh
  = (Returns (samples.failed_payment_zero_amount,
              Some (ErrNew "invalid transaction data")), samples.fresh)
  /\ outcome samples.fresh
       (ProcessTransaction samples.failed_payment_zero_amount samples.fresh)
     = Some Rejected
  /\ made samples.fresh
       (snd (ProcessTransaction samples.failed_payment_zero_amount
               samples.fresh)) = []
  /\ store
       (snd (ProcessTransaction samples.failed_payment_zero_amount
               samples.fresh)) = store samples.fresh.
Proof.
  apply (ProcessTransaction_rejects_invalid samples.failed_payment_zero_amount
           samples.fresh).
  right. right. right. right. reflexivity.
Defined.

(** What C3 says does not happen.  Another writer inserts the transaction
    between the existence check and the create; the create is refused by the
    unique index on the transaction id; [ProcessTransaction] returns that
    error, wrapped, and the outcome is Failed. *)
Lemma racing_writer_makes_create_Failed :
  postgres.Exists "trans-123" samples.raced_db
  = ((false, None),
     postgres.mkDB []
       [postgres.RacingInsert
          (postgres.with_ID (postgres.entityToModel samples.topup)
             "other-writer")])
  /\ snd (fst (postgres.Create samples.topup
                 (snd (postgres.Exists "trans-123" samples.raced_db))))
     = Some (ErrWrap "failed to create transaction"
               (ErrUniqueViolation "idx_historical_transactions_transaction_id"))
  /\ returned_error (ProcessTransaction samples.topup samples.raced)
     = Some (Some (ErrWrap "failed to create transaction"
                     (ErrWrap "failed to create transaction"
                        (ErrUniqueViolation
                           "idx_historical_transactions_transaction_id"))))
  /\ outcome samples.raced (ProcessTransaction samples.topup samples.raced)
     = Some Failed
  /\ outcome samples.raced (ProcessTransaction samples.topup samples.raced)
     <> Some Skipped.
Proof.
  repeat split; try reflexivity.
  assert (E : outcome samples.raced
                (ProcessTransaction samples.topup samples.raced)
              = Some Failed) by reflexivity.
  rewrite E. discriminate.
Qed.

(** A run of C3 as amended: the same race. *)
Lemma ProcessTransaction_create_error_is_Failed_race :
  fst (ProcessTransaction samples.topup samples.raced)
  = Returns (samples.topup,
             Some (ErrWrap "failed to create transaction"
                     (ErrWrap "failed to create transaction"
                        (ErrUniqueViolation
                           "idx_historical_transactions_transaction_id"))))
  /\ outcome samples.raced (ProcessTransaction samples.topup samples.raced)
     = Some Failed
  /\ In (mkLog ERROR "Failed to create transaction")
        (emitted samples.raced
           (snd (ProcessTransaction samples.topup samples.raced)))
  /\ store (snd (ProcessTransaction samples.topup samples.raced))
     = postgres.mkDB
         [postgres.with_ID (postgres.entityToModel samples.topup)
            "other-writer"] [].
Proof.
  apply (ProcessTransaction_create_error_is_Failed samples.topup samples.topup
           samples.raced
           (ErrWrap "failed to create transaction"
              (ErrUniqueViolation "idx_historical_transactions_transaction_id"))
           (postgres.mkDB []
              [postgres.RacingInsert
                 (postgres.with_ID (postgres.entityToModel samples.topup)
                    "other-writer")])
           (postgres.mkDB
              [postgres.with_ID (postgres.entityToModel samples.topup)
                 "other-writer"] [])); reflexivity.
Defined.

(** What C7 says does not happen.  The failed payment whose balance moved is
    rejected when its amount is zero, and no warning is emitted. *)
Lemma rejected_failed_payment_gets_no_warning :
  TransactionStatus_ samples.failed_payment_zero_amount
  = TransactionStatusFailed
  /\ (BalanceBefore samples.failed_payment_zero_amount
      =? BalanceAfter samples.failed_payment_zero_amount)%float = false
  /\ outcome samples.fresh
       (ProcessTransaction samples.failed_payment_zero_amount samples.fresh)
     = Some Rejected
  /\ emitted samples.fresh
       (snd (ProcessTransaction samples.failed_payment_zero_amount
               samples.fresh)) = []
  /\ ~ In warning
         (emitted samples.fresh
            (snd (ProcessTransaction samples.failed_payment_zero_amount
                    samples.fresh))).
Proof.
  repeat split; try reflexivity.
  assert (E : emitted samples.fresh
                (snd (ProcessTransaction samples.failed_payment_zero_amount
                        samples.fresh)) = []) by reflexivity.
  rewrite E. intros [].
Qed.

(** Nor is one emitted when the payment is a duplicate and skipped. *)
Lemma skipped_failed_payment_gets_no_warning :
  let t := samples.failed_payment in
  let run1 := ProcessTransaction t samples.fresh in
  let run2 := ProcessTransaction t (snd run1) in
  filter is_warning (emitted samples.fresh (snd run1)) = [warning]
  /\ outcome (snd run1) run2 = Some Skipped
  /\ filter is_warning (emitted (snd run1) (snd run2)) = [].
Proof. cbv zeta. repeat split; reflexivity. Qed.

(** A run of C7 as amended: the failed payment of the use-case tests against
    the same payment with the balance left at 1000. *)
Lemma failed_balance_warning_is_additive_payment :
  let run := ProcessTransaction samples.failed_payment samples.fresh in
  let run0 :=
    ProcessTransaction
      (with_balances samples.failed_payment 1000%float 1000%float)
      samples.fresh in
  filter is_warning (emitted samples.fresh (snd run))
  = (if reaches_create samples.failed_payment samples.fresh
     then [warning] else [])
  /\ outcome samples.fresh run = outcome samples.fresh run0
  /\ returned_error run = returned_error run0
  /\ map blind_call (made samples.fresh (snd run))
     = map blind_call (made samples.fresh (snd run0))
  /\ map blind (postgres.table (store (snd run)))
     = map blind (postgres.table (store (snd run0)))
  /\ postgres.pending (store (snd run)) = postgres.pending (store (snd run0))
  /\ filter not_warning (emitted samples.fresh (snd run))
     = filter not_warning (emitted samples.fresh (snd run0)).
Proof.
  apply (failed_balance_warning_is_additive samples.failed_payment
           samples.fresh 1000%float 1000%float); reflexivity.
Defined.

(** ** The pipeline end to end *)

Section EndToEnd.

Context {S : Type} {transactionRepo : TransactionRepository S}.

(** [ProcessTransaction] always returns. *)
Lemma ProcessTransaction_returns (t : Transaction) (w : World S) :
  exists (t' : Transaction) (err : option error) (w' : World S),
    ProcessTransaction t w = (Returns (t', err), w').
Proof.
  destruct (IsValid t) eqn:V.
  - destruct (Exists (TransactionID t) (store w)) as [[b [e|]] s1] eqn:E.
    + rewrite (ProcessTransaction_exists_error t w e b s1 V E). eauto.
    + destruct b.
      * rewrite (ProcessTransaction_skips_existing t w s1 V E). eauto.
      * destruct (Create t s1) as [[t' err] s2] eqn:C.
        rewrite (ProcessTransaction_creates t w s1 s2 t' err V E C). eauto.
  - rewrite (ProcessTransaction_invalid t w V). eauto.
Qed.

Variable json_Unmarshal : string -> deliveries.KafkaTransactionMessage + error.

(** The handler returns on every payload that does not decode, and on every
    payload that decodes to a message on whose timestamps no type assertion
    fails. *)
Lemma HandleMessage_returns (message : string) (w : World S) :
  (forall msg, json_Unmarshal message = inl msg ->
     assertions_hold (deliveries.CreatedAt msg) = true
     /\ assertions_hold (deliveries.UpdatedAt msg) = true) ->
  exists (herr : option error) (w' : World S),
    deliveries.HandleMessage json_Unmarshal message w = (Returns herr, w').
Proof.
  intros H. unfold deliveries.HandleMessage, bind, emit.
  destruct (json_Unmarshal message) as [msg|e];
    [|cbv beta iota; unfold ret; eauto].
  destruct (H msg eq_refl) as [Hc Hu]. cbv beta iota.
  match goal with
  | |- context [deliveries.kafkaMessageToEntity msg ?w1] =>
      destruct (kafkaMessageToEntity_returns msg w1 Hc Hu)
        as (c & u & w2 & -> & _)
  end.
  cbv beta iota.
  destruct (ProcessTransaction_returns (deliveries.buildEntity msg c u) w2)
    as (t' & err & w3 & ->).
  destruct err; unfold ret; eauto.
Qed.

(** So the loop driven by the handler commits every message delivered,
    decodable or not, written, skipped, rejected or failed. *)
Lemma Consume_HandleMessage_commits_delivered
  (script : list consumer.Iteration) (w : World S) :
  (forall payload msg, json_Unmarshal payload = inl msg ->
     assertions_hold (deliveries.CreatedAt msg) = true
     /\ assertions_hold (deliveries.UpdatedAt msg) = true) ->
  committed
    (snd (fst (consumer.Consume (deliveries.HandleMessage json_Unmarshal)
                 script w)))
  = delivered script
  /\ fst (fst (consumer.Consume (deliveries.HandleMessage json_Unmarshal)
                 script w))
     = exit_of script.
Proof.
  intros H. unfold consumer.Consume. split.
  - apply loop_commits_delivered. intros v w0.
    apply HandleMessage_returns. intros msg. apply H.
  - apply loop_exit. intros v w0.
    apply HandleMessage_returns. intros msg. apply H.
Qed.

End EndToEnd.

(** A payload that does not decode followed by a valid top-up: one row is
    stored, for "trans-456", and both messages are committed. *)
Example malformed_then_valid :
  let run :=
    consumer.Consume (deliveries.HandleMessage samples.decode)
      [consumer.FetchOk samples.malformed None;
       consumer.FetchOk samples.valid None] samples.fresh in
  committed (snd (fst run)) = [samples.malformed; samples.valid]
  /\ map postgres.TransactionID (postgres.table (store (snd run)))
     = ["trans-456"]
  /\ fst (fst run) = consumer.Fetching.
Proof. cbv zeta. repeat split; vm_compute; reflexivity. Qed.

(** The same valid message twice: one row, one "already exists" entry, both
    messages committed. *)
Example valid_twice :
  let run :=
    consumer.Consume (deliveries.HandleMessage samples.decode)
      [consumer.FetchOk samples.valid None;
       consumer.FetchOk samples.valid_again None] samples.fresh in
  committed (snd (fst run)) = [samples.valid; samples.valid_again]
  /\ map postgres.TransactionID (postgres.table (store (snd run)))
     = ["trans-456"]
  /\ filter (fun e => (message e =? "Transaction already exists, skipping")%string)
       (logs (snd run))
     = [mkLog INFO "Transaction already exists, skipping"].
Proof. cbv zeta. repeat split; vm_compute; reflexivity. Qed.

(* ===================================================================== *)
(** * Further properties *)
(* ===================================================================== *)

(** ** The repository: conversions and lookup *)

(** X1.  The two conversions between the entity and the database model are
    inverse to each other: nothing is lost on the way to the table or
    back. *)
Theorem entity_model_round_trip (t : Transaction)
  (m : postgres.TransactionModel) :
  postgres.modelToEntity (postgres.entityToModel t) = t
  /\ postgres.entityToModel (postgres.modelToEntity m) = m.
Proof.
  split.
  - destruct t as [? ? ? ? ? ? ? ? ? ? ? ? pm ? ? ? ?].
    destruct pm; reflexivity.
  - destruct m as [? ? ? ? ? ? ? ? ? ? ? ? pm ? ? ? ?].
    destruct pm; reflexivity.
Qed.

Section RepositoryFacts.

Import postgres.

Context {columns : Columns}.

(** The record read back from the row stored for a record. *)
Lemma modelToEntity_stored (t : Transaction) (id : string) (n : nat) :
  modelToEntity (stored (entityToModel t) id n)
  = mkTransaction id (entities.UserID t) (entities.AccountID t)
      (entities.TransactionID t) (entities.TransactionType_ t)
      (entities.TransactionStatus_ t)
      (numeric_15_2 (entities.Amount t))
      (numeric_15_2 (entities.BalanceBefore t))
      (numeric_15_2 (entities.BalanceAfter t))
      (if (entities.Currency t =? "")%string then "IDR"
       else entities.Currency t)
      (entities.Description t) (entities.ExternalReference t)
      (entities.PaymentMethod_ t) (entities.Metadata t) true
      (if time_IsZero (entities.CreatedAt t) then default_now n
       else timestamp_tz (entities.CreatedAt t))
      (if time_IsZero (entities.UpdatedAt t) then default_now n
       else timestamp_tz (entities.UpdatedAt t)).
Proof.
  destruct t as [? ? ? ? ? ? ? ? ? ? ? ? pm ? acc ? ?].
  destruct pm, acc; reflexivity.
Qed.

(** What a racing writer leaves: the table, or the table and one row. *)
Lemma arrive_extends (i : Interference) (rows : list TransactionModel) :
  exists l, arrive i rows = (rows ++ l)%list.
Proof.
  destruct i as [| |row]; cbn; try (exists []; rewrite app_nil_r; reflexivity).
  destruct (has_id _ rows || has_transaction_id _ rows).
  - exists []. rewrite app_nil_r. reflexivity.
  - exists [row]. reflexivity.
Qed.

(** What a successful [Create] did. *)
Lemma Create_success_inv (t t' : Transaction) (db db' : DB) :
  postgres.Create t db = ((t', None), db') ->
  exists (id : string) (rows : list TransactionModel),
    rows = arrive (fst (next db)) (table (snd (next db)))
    /\ has_id id rows = false
    /\ has_transaction_id (entities.TransactionID t) rows = false
    /\ table db'
       = (rows ++ [stored (entityToModel t) id (List.length rows)])%list
    /\ pending db' = pending (snd (next db))
    /\ t' = set_ID t id.
Proof.
  unfold postgres.Create, gorm_Create.
  destruct (next db) as [i db1]. cbn [fst snd].
  rewrite entityToModel_TransactionID.
  destruct i as [|e|row]; try discriminate;
    match goal with
    | |- context [has_id ?x ?r] => set (id := x); set (rows := r)
    end;
    destruct (has_id id rows) eqn:Fi; try discriminate;
    destruct (has_transaction_id _ rows) eqn:Ft; try discriminate;
    cbn; intros H; inversion H; subst; exists id, rows; auto 7.
Qed.

Lemma length_snoc {A} (l : list A) (x : A) :
  (List.length (l ++ [x]) - 1)%nat = List.length l.
Proof. rewrite length_app. cbn. lia. Qed.

Lemma find_after (tid : string) (rows l : list TransactionModel)
  (row : TransactionModel) :
  has_transaction_id tid rows = false ->
  postgres.TransactionID row = tid ->
  find (fun r => (postgres.TransactionID r =? tid)%string)
    ((rows ++ [row]) ++ l) = Some row.
Proof.
  intros F E. unfold has_transaction_id in F.
  induction rows as [|r rows IH]; cbn in *.
  - rewrite E, String.eqb_refl. reflexivity.
  - apply orb_false_iff in F. destruct F as [-> F]. auto.
Qed.

(** X2.  What [Create] stored, [GetByTransactionID] finds, as the table
    holds it.  After a successful [Create], a lookup of the record's
    transaction id that meets no fault returns no error and a record with
    the key [Create] assigned and the identifiers, type, status and optional
    texts of the record; its amounts and instants are what the columns keep
    of them, its currency is IDR when the record has none, and it is
    accessible from external whatever the record said.  For a record the
    table holds exactly, the lookup returns the record as [Create] left it.
    A racing writer between the two calls changes nothing of this. *)
Theorem Create_then_GetByTransactionID (t t' : Transaction) (db db' : DB) :
  postgres.Create t db = ((t', None), db') ->
  answers db' = true ->
  let kept (instant : Time) :=
    if time_IsZero instant
    then default_now (List.length (table db') - 1)
    else timestamp_tz instant in
  fst (postgres.GetByTransactionID (entities.TransactionID t) db')
  = (Some
       (mkTransaction (entities.ID t') (entities.UserID t)
          (entities.AccountID t) (entities.TransactionID t)
          (entities.TransactionType_ t) (entities.TransactionStatus_ t)
          (numeric_15_2 (entities.Amount t))
          (numeric_15_2 (entities.BalanceBefore t))
          (numeric_15_2 (entities.BalanceAfter t))
          (if (entities.Currency t =? "")%string then "IDR"
           else entities.Currency t)
          (entities.Description t) (entities.ExternalReference t)
          (entities.PaymentMethod_ t) (entities.Metadata t) true
          (kept (entities.CreatedAt t)) (kept (entities.UpdatedAt t))),
     None)
  /\ (held_exactly t ->
      fst (postgres.GetByTransactionID (entities.TransactionID t) db')
      = (Some t', None)).
Proof.
  intros C A kept.
  destruct (Create_success_inv t t' db db' C)
    as (id & rows & _ & _ & Ft & Ht & _ & ->).
  assert (G : fst (postgres.GetByTransactionID (entities.TransactionID t) db')
              = (Some (modelToEntity
                         (stored (entityToModel t) id (List.length rows))),
                 None)).
  { unfold postgres.GetByTransactionID, gorm_First, next.
    unfold answers in A.
    destruct (pending db') as [|i rest] eqn:P.
    - cbn [arrive table]. rewrite Ht.
      rewrite <- (app_nil_r (rows ++ _)).
      rewrite (find_after _ rows [] _ Ft);
        [|cbn; apply entityToModel_TransactionID].
      reflexivity.
    - destruct i as [|e|row]; try discriminate; cbn [table].
      + cbn [arrive]. rewrite Ht. rewrite <- (app_nil_r (rows ++ _)).
        rewrite (find_after _ rows [] _ Ft);
          [|cbn; apply entityToModel_TransactionID].
        reflexivity.
      + destruct (arrive_extends (RacingInsert row) (table db')) as (l & ->).
        rewrite Ht.
        rewrite (find_after _ rows l _ Ft);
          [|cbn; apply entityToModel_TransactionID].
        reflexivity. }
  rewrite G, modelToEntity_stored. subst kept. cbv beta.
  rewrite Ht, length_snoc. split; [reflexivity|].
  intros (Hc & Ha & Hm & Hb & Hf & Zc & Tc & Zu & Tu).
  apply String.eqb_neq in Hc.
  rewrite Hc, Hm, Hb, Hf, Zc, Tc, Zu, Tu, <- Ha. reflexivity.
Qed.

End RepositoryFacts.

(** A run of the theorem above: the top-up, which the sample table holds
    exactly, stored in an empty table and looked up. *)
Lemma Create_then_GetByTransactionID_topup :
  held_exactly samples.topup
  /\ fst (postgres.GetByTransactionID (TransactionID samples.topup)
            (snd (postgres.Create samples.topup samples.empty_db)))
     = (Some (set_ID samples.topup "u"), None).
Proof.
  assert (H : held_exactly samples.topup).
  { unfold held_exactly. cbn. repeat split; discriminate. }
  split; [exact H|].
  apply (Create_then_GetByTransactionID samples.topup
           (set_ID samples.topup "u") samples.empty_db
           (snd (postgres.Create samples.topup samples.empty_db)));
    [reflexivity | reflexivity | exact H].
Defined.

Section LookupFacts.

Import postgres.

Lemma count_positive_iff_found (tid : string) (rows : list TransactionModel) :
  (0 <? count_transaction_id tid rows) = true
  <-> find (fun r => (postgres.TransactionID r =? tid)%string) rows <> None.
Proof.
  unfold count_transaction_id. induction rows as [|r rows IH]; cbn.
  - split; [discriminate | congruence].
  - destruct (postgres.TransactionID r =? tid)%string.
    + cbn [List.length]. split; [discriminate|]. intros _.
      apply Z.ltb_lt. lia.
    + exact IH.
Qed.

Lemma modelToEntity_TransactionID (m : TransactionModel) :
  entities.TransactionID (modelToEntity m) = postgres.TransactionID m.
Proof. unfold modelToEntity. destruct (PaymentMethod m); reflexivity. Qed.

(** X3.  [Exists] and [GetByTransactionID] agree.  On a database whose next
    statement meets no fault, neither returns an error; [Exists] answers
    true exactly when [GetByTransactionID] finds a record, a missing row
    being (nil, nil) and not an error; and the record found carries the
    transaction id asked for. *)
Theorem Exists_agrees_with_GetByTransactionID (tid : string) (db : DB) :
  answers db = true ->
  snd (fst (postgres.Exists tid db)) = None
  /\ snd (fst (postgres.GetByTransactionID tid db)) = None
  /\ (fst (fst (postgres.Exists tid db)) = true
      <-> fst (fst (postgres.GetByTransactionID tid db)) <> None)
  /\ (forall t, fst (fst (postgres.GetByTransactionID tid db)) = Some t ->
        entities.TransactionID t = tid).
Proof.
  intros A. unfold answers in A.
  unfold postgres.Exists, postgres.GetByTransactionID, gorm_Count, gorm_First,
    next.
  destruct (pending db) as [|i rest]; [|destruct i as [|e|row]];
    try discriminate; cbn [fst snd table pending];
    match goal with
    | |- context [find _ ?rows] =>
        pose proof (count_positive_iff_found tid rows) as Kr;
        pose proof (find_some (fun r => (postgres.TransactionID r =? tid)%string)
                      rows) as Fs;
        destruct (find (fun r => (postgres.TransactionID r =? tid)%string) rows)
          as [model|] eqn:F
    end; cbn in Kr |- *; (repeat split; auto; try tauto);
    try (intros t Ht; inversion Ht; subst;
         rewrite modelToEntity_TransactionID;
         destruct (Fs model eq_refl) as [_ E];
         apply String.eqb_eq in E; exact E);
    try discriminate;
    try (intros _; apply Kr; discriminate).
Qed.

End LookupFacts.

(** A run of the theorem above, on an empty table. *)
Lemma Exists_agrees_with_GetByTransactionID_empty :
  snd (fst (postgres.Exists "trans-123" samples.empty_db)) = None
  /\ snd (fst (postgres.GetByTransactionID "trans-123" samples.empty_db)) = None
  /\ (fst (fst (postgres.Exists "trans-123" samples.empty_db)) = true
      <-> fst (fst (postgres.GetByTransactionID "trans-123" samples.empty_db))
          <> None)
  /\ (forall t,
        fst (fst (postgres.GetByTransactionID "trans-123" samples.empty_db))
        = Some t ->
        TransactionID t = "trans-123").
Proof.
  apply (Exists_agrees_with_GetByTransactionID "trans-123" samples.empty_db).
  reflexivity.
Defined.

(** ** [ProcessTransaction]: what it calls and what it keeps *)

Section CallDiscipline.

Context {S : Type} {transactionRepo : TransactionRepository S}.

(** X4.  The repository methods a run invokes are fixed by the validity of
    the record and the answer of the existence check: none for an invalid
    record; [Exists] alone when the check fails or finds the row; [Exists]
    and then one [Create], of the record as given, otherwise.
    [GetByTransactionID] is never invoked and nothing is invoked twice. *)
Theorem ProcessTransaction_calls (t : Transaction) (w : World S) :
  made w (snd (ProcessTransaction t w))
  = (if reaches_create t w
     then [CallExists (TransactionID t); CallCreate t]
     else if IsValid t then [CallExists (TransactionID t)] else []).
Proof.
  unfold reaches_create.
  destruct (IsValid t) eqn:V; cbn [andb].
  - destruct (Exists (TransactionID t) (store w)) as [[b [e|]] s1] eqn:E;
      cbn [fst].
    + rewrite (ProcessTransaction_exists_error t w e b s1 V E).
      unfold made. cbn [snd calls]. rewrite skipn_length_app.
      destruct b; reflexivity.
    + destruct b.
      * rewrite (ProcessTransaction_skips_existing t w s1 V E).
        unfold made. cbn [snd calls]. rewrite skipn_length_app. reflexivity.
      * destruct (Create t s1) as [[t' err] s2] eqn:C.
        rewrite (ProcessTransaction_creates t w s1 s2 t' err V E C).
        unfold made. cbn [snd calls]. rewrite skipn_length_app. reflexivity.
  - rewrite (ProcessTransaction_invalid t w V). cbn [snd].
    apply made_nothing.
Qed.

(** Whatever the two methods keep true of the store, a run keeps true. *)
Lemma ProcessTransaction_keeps (P : S -> Prop) :
  (forall tid s, P s -> P (snd (Exists tid s))) ->
  (forall t s, P s -> P (snd (Create t s))) ->
  forall (t : Transaction) (w : World S),
    P (store w) -> P (store (snd (ProcessTransaction t w))).
Proof.
  intros HE HC t w H.
  destruct (IsValid t) eqn:V.
  - pose proof (HE (TransactionID t) (store w) H) as H1.
    destruct (Exists (TransactionID t) (store w)) as [[b [e|]] s1] eqn:E;
      cbn [snd] in H1.
    + rewrite (ProcessTransaction_exists_error t w e b s1 V E). exact H1.
    + destruct b.
      * rewrite (ProcessTransaction_skips_existing t w s1 V E). exact H1.
      * pose proof (HC t s1 H1) as H2.
        destruct (Create t s1) as [[t' err] s2] eqn:C. cbn [snd] in H2.
        rewrite (ProcessTransaction_creates t w s1 s2 t' err V E C). exact H2.
  - rewrite (ProcessTransaction_invalid t w V). exact H.
Qed.

End CallDiscipline.

Section TableInvariants.

Import postgres.

Context {columns : Columns}.

Lemma Exists_table (tid : string) (db : DB) :
  exists i, table (snd (postgres.Exists tid db)) = arrive i (table db).
Proof.
  unfold postgres.Exists, gorm_Count, next.
  destruct (pending db) as [|i rest]; [exists Quiet; reflexivity|].
  destruct i as [|e|row]; cbn.
  - exists Quiet. reflexivity.
  - exists Quiet. reflexivity.
  - exists (RacingInsert row). reflexivity.
Qed.

Lemma Create_table (t : Transaction) (db : DB) :
  exists i,
    table (snd (postgres.Create t db)) = arrive i (table db)
    \/ exists id,
         has_id id (arrive i (table db)) = false
         /\ has_transaction_id (entities.TransactionID t) (arrive i (table db))
            = false
         /\ table (snd (postgres.Create t db))
            = (arrive i (table db)
               ++ [stored (entityToModel t) id
                     (List.length (arrive i (table db)))])%list.
Proof.
  unfold postgres.Create, gorm_Create, next.
  rewrite entityToModel_TransactionID.
  destruct (pending db) as [|[|e|row] rest]; cbn [fst snd table pending].
  1,2: exists Quiet.
  3: exists Quiet; left; reflexivity.
  3: exists (RacingInsert row).
  all: match goal with
       | |- context [has_id ?x ?r] => destruct (has_id x r) eqn:Fi
       end; [left; reflexivity|];
       match goal with
       | |- context [has_transaction_id ?x ?r] =>
           destruct (has_transaction_id x r) eqn:Ft
       end; [left; reflexivity|];
       right; eexists; (split; [exact Fi | split; reflexivity]).
Qed.

(** X6.  Rows are only ever added.  After a run of [ProcessTransaction] the
    table is the table before followed by the rows that came in: nothing
    is deleted, updated or reordered. *)
Theorem ProcessTransaction_keeps_rows (t : Transaction) (w : World DB) :
  exists added,
    table (store (snd (ProcessTransaction t w)))
    = (table (store w) ++ added)%list.
Proof.
  apply (ProcessTransaction_keeps
           (fun db => exists added, table db = (table (store w) ++ added)%list)).
  - intros tid s (l & Hs). cbn [repositories.Exists transactionRepository].
    destruct (Exists_table tid s) as (i & ->).
    destruct (arrive_extends i (table s)) as (l' & ->).
    rewrite Hs, <- app_assoc. eauto.
  - intros t0 s (l & Hs). cbn [repositories.Create transactionRepository].
    destruct (Create_table t0 s) as (i & [->|(id & _ & _ & ->)]);
      destruct (arrive_extends i (table s)) as (l' & ->);
      rewrite Hs, <- ?app_assoc; eauto.
  - exists []. rewrite app_nil_r. reflexivity.
Qed.

End TableInvariants.

(** ** Faults and duplicates *)

Lemma errors_Is_unfold (err target : error) :
  errors_Is err target
  = if error_eq_dec err target then true
    else match err with
         | ErrWrap _ cause => errors_Is cause target
         | _ => false
         end.
Proof. destruct err; reflexivity. Qed.

Lemma errors_Is_refl (e : error) : errors_Is e e = true.
Proof.
  rewrite errors_Is_unfold. destruct (error_eq_dec e e); congruence.
Qed.

Lemma errors_Is_wrap (msg : string) (cause target : error) :
  errors_Is cause target = true -> errors_Is (ErrWrap msg cause) target = true.
Proof.
  intros H. rewrite errors_Is_unfold.
  destruct (error_eq_dec (ErrWrap msg cause) target); auto.
Qed.

Section FaultsAndDuplicates.

Import postgres.

Context {columns : Columns}.

(** X7.  A fault at the existence check.  When the first statement of a run
    on a valid record fails with [e], [ProcessTransaction] returns an error
    in whose chain [errors.Is] finds [e]; the outcome is Failed; [Create] is
    not attempted; the table and the record are as they were. *)
Theorem ProcessTransaction_fault_at_check (t : Transaction) (w : World DB)
  (e : error) (rest : list Interference) :
  IsValid t = true ->
  pending (store w) = Fault e :: rest ->
  exists er,
    fst (ProcessTransaction t w) = Returns (t, Some er)
    /\ errors_Is er e = true
    /\ outcome w (ProcessTransaction t w) = Some Failed
    /\ made w (snd (ProcessTransaction t w)) = [CallExists (entities.TransactionID t)]
    /\ table (store (snd (ProcessTransaction t w))) = table (store w)
    /\ pending (store (snd (ProcessTransaction t w))) = rest.
Proof.
  intros V P.
  assert (E : repositories.Exists (entities.TransactionID t) (store w)
              = ((false,
                  Some (ErrWrap "failed to check transaction existence" e)),
                 mkDB (table (store w)) rest)).
  { cbn [repositories.Exists transactionRepository].
    unfold postgres.Exists, gorm_Count, next. rewrite P. reflexivity. }
  rewrite (ProcessTransaction_exists_error t w _ _ _ V E).
  eexists. split; [reflexivity|].
  split; [apply errors_Is_wrap, errors_Is_wrap, errors_Is_refl|].
  cbn [outcome snd store table pending].
  rewrite wrapped_is_not_the_validation_error.
  unfold made. cbn [calls]. rewrite skipn_length_app. auto.
Qed.

(** X8.  A fault at the create.  When the existence check of a valid record
    runs undisturbed and finds no row, and the insert then fails with [e],
    the run returns an error in whose chain [errors.Is] finds [e]; the
    outcome is Failed; no row is added; and the record keeps the [ID] it
    had: the generated key is only assigned on success. *)
Theorem ProcessTransaction_fault_at_create (t : Transaction) (w : World DB)
  (e : error) (rest : list Interference) :
  IsValid t = true ->
  pending (store w) = Quiet :: Fault e :: rest ->
  has_transaction_id (entities.TransactionID t) (table (store w)) = false ->
  exists er,
    fst (ProcessTransaction t w) = Returns (t, Some er)
    /\ errors_Is er e = true
    /\ outcome w (ProcessTransaction t w) = Some Failed
    /\ made w (snd (ProcessTransaction t w))
       = [CallExists (entities.TransactionID t); CallCreate t]
    /\ table (store (snd (ProcessTransaction t w))) = table (store w)
    /\ pending (store (snd (ProcessTransaction t w))) = rest.
Proof.
  intros V P F.
  assert (E : repositories.Exists (entities.TransactionID t) (store w)
              = ((false, None), mkDB (table (store w)) (Fault e :: rest))).
  { cbn [repositories.Exists transactionRepository].
    unfold postgres.Exists, gorm_Count, next. rewrite P.
    cbn [arrive table pending]. rewrite (count_absent _ _ F). reflexivity. }
  assert (C : repositories.Create t (mkDB (table (store w)) (Fault e :: rest))
              = ((t, Some (ErrWrap "failed to create transaction" e)),
                 mkDB (table (store w)) rest)).
  { reflexivity. }
  rewrite (ProcessTransaction_creates t w _ _ _ _ V E C).
  eexists. split; [reflexivity|].
  split; [apply errors_Is_wrap, errors_Is_wrap, errors_Is_refl|].
  cbn [outcome snd store table pending].
  rewrite wrapped_is_not_the_validation_error.
  unfold made. cbn [calls]. rewrite skipn_length_app. auto.
Qed.

Lemma count_positive (tid : string) (rows : list TransactionModel) :
  has_transaction_id tid rows = true ->
  (0 <? count_transaction_id tid rows) = true.
Proof.
  unfold has_transaction_id, count_transaction_id.
  induction rows as [|r rows IH]; cbn; [discriminate|].
  destruct (postgres.TransactionID r =? tid)%string; cbn [orb List.length].
  - intros _. apply Z.ltb_lt. lia.
  - exact IH.
Qed.

Lemma has_transaction_id_app (tid : string) (rows l : list TransactionModel) :
  has_transaction_id tid rows = true ->
  has_transaction_id tid (rows ++ l) = true.
Proof.
  unfold has_transaction_id. rewrite existsb_app. intros ->. reflexivity.
Qed.

Lemma arrive_count (i : Interference) (tid : string)
  (rows : list TransactionModel) :
  has_transaction_id tid rows = true ->
  count_transaction_id tid (arrive i rows) = count_transaction_id tid rows.
Proof.
  intros H. destruct i as [| |row]; cbn; auto.
  destruct (has_id _ rows); cbn; auto.
  destruct (has_transaction_id (postgres.TransactionID row) rows) eqn:F; auto.
  rewrite count_snoc.
  destruct (postgres.TransactionID row =? tid)%string eqn:E; [|lia].
  apply String.eqb_eq in E. rewrite E in F. congruence.
Qed.

(** X9.  A duplicate is skipped and writes nothing.  When the table already
    holds a row for the transaction id of a valid record and the existence
    check meets no fault, the run returns nil with the record as given, the
    outcome is Skipped, [Exists] is the only method invoked, and the number
    of rows for that transaction id is what it was, even if a racing writer
    comes in. *)
Theorem ProcessTransaction_duplicate (t : Transaction) (w : World DB) :
  IsValid t = true ->
  answers (store w) = true ->
  has_transaction_id (entities.TransactionID t) (table (store w)) = true ->
  fst (ProcessTransaction t w) = Returns (t, None)
  /\ outcome w (ProcessTransaction t w) = Some Skipped
  /\ made w (snd (ProcessTransaction t w)) = [CallExists (entities.TransactionID t)]
  /\ count_transaction_id (entities.TransactionID t)
       (table (store (snd (ProcessTransaction t w))))
     = count_transaction_id (entities.TransactionID t) (table (store w)).
Proof.
  intros V A H.
  assert (E : exists i,
            match i with Fault _ => False | _ => True end
            /\ repositories.Exists (entities.TransactionID t) (store w)
               = ((true, None),
                  mkDB (arrive i (table (store w)))
                    (tl (pending (store w))))).
  { cbn [repositories.Exists transactionRepository].
    unfold postgres.Exists, gorm_Count, next. unfold answers in A.
    destruct (pending (store w)) as [|[|e|row] rest] eqn:P; try discriminate.
    - exists Quiet. split; auto. cbn [arrive table pending tl].
      rewrite (count_positive _ _ H), P. reflexivity.
    - exists Quiet. split; auto. cbn [arrive table pending tl].
      rewrite (count_positive _ _ H). reflexivity.
    - exists (RacingInsert row). split; auto. cbn [table pending tl].
      rewrite count_positive; [reflexivity|].
      destruct (arrive_extends (RacingInsert row) (table (store w)))
        as (l & ->).
      apply has_transaction_id_app. exact H. }
  destruct E as (i & _ & E).
  rewrite (ProcessTransaction_skips_existing t w _ V E).
  cbn [fst snd outcome store table]. unfold made. cbn [calls].
  rewrite skipn_length_app. cbn. rewrite (arrive_count i _ _ H). auto.
Qed.

End FaultsAndDuplicates.

(** A run of X7: the database is down when the top-up arrives. *)
Lemma ProcessTransaction_fault_at_check_topup :
  let w := mkWorld (postgres.mkDB [] [postgres.Fault ErrConnDone]) [] []
             samples.clock 0%nat in
  exists er,
    fst (ProcessTransaction samples.topup w) = Returns (samples.topup, Some er)
    /\ errors_Is er ErrConnDone = true
    /\ outcome w (ProcessTransaction samples.topup w) = Some Failed
    /\ made w (snd (ProcessTransaction samples.topup w))
       = [CallExists (TransactionID samples.topup)]
    /\ postgres.table (store (snd (ProcessTransaction samples.topup w)))
       = postgres.table (store w)
    /\ postgres.pending (store (snd (ProcessTransaction samples.topup w))) = [].
Proof.
  apply (ProcessTransaction_fault_at_check samples.topup
           (mkWorld (postgres.mkDB [] [postgres.Fault ErrConnDone]) [] []
              samples.clock 0%nat) ErrConnDone []); reflexivity.
Defined.

(** A run of X8: the context is cancelled during the insert. *)
Lemma ProcessTransaction_fault_at_create_topup :
  let w := mkWorld
             (postgres.mkDB [] [postgres.Quiet; postgres.Fault ErrCanceled])
             [] [] samples.clock 0%nat in
  exists er,
    fst (ProcessTransaction samples.topup w) = Returns (samples.topup, Some er)
    /\ errors_Is er ErrCanceled = true
    /\ outcome w (ProcessTransaction samples.topup w) = Some Failed
    /\ made w (snd (ProcessTransaction samples.topup w))
       = [CallExists (TransactionID samples.topup); CallCreate samples.topup]
    /\ postgres.table (store (snd (ProcessTransaction samples.topup w)))
       = postgres.table (store w)
    /\ postgres.pending (store (snd (ProcessTransaction samples.topup w))) = [].
Proof.
  apply (ProcessTransaction_fault_at_create samples.topup
           (mkWorld
              (postgres.mkDB [] [postgres.Quiet; postgres.Fault ErrCanceled])
              [] [] samples.clock 0%nat) ErrCanceled []); reflexivity.
Defined.

(** A run of X9: the top-up delivered to a table that holds it. *)
Lemma ProcessTransaction_duplicate_topup :
  let w := mkWorld
             (postgres.mkDB
                [postgres.with_ID (postgres.entityToModel samples.topup) "u"]
                []) [] [] samples.clock 0%nat in
  fst (ProcessTransaction samples.topup_again w)
  = Returns (samples.topup_again, None)
  /\ outcome w (ProcessTransaction samples.topup_again w) = Some Skipped
  /\ made w (snd (ProcessTransaction samples.topup_again w))
     = [CallExists (TransactionID samples.topup_again)]
  /\ postgres.count_transaction_id (TransactionID samples.topup_again)
       (postgres.table (store (snd (ProcessTransaction samples.topup_again w))))
     = postgres.count_transaction_id (TransactionID samples.topup_again)
         (postgres.table (store w)).
Proof.
  apply (ProcessTransaction_duplicate samples.topup_again
           (mkWorld
              (postgres.mkDB
                 [postgres.with_ID (postgres.entityToModel samples.topup) "u"]
                 []) [] [] samples.clock 0%nat)); reflexivity.
Defined.

(** ** Timestamps *)

Section TimestampFacts.

Import deliveries.

(** With six elements or more a return carries no error. *)
Lemma parseTimestamp_long_no_error (l : list JSON) (tm : Time)
  (err : option error) :
  (6 <= List.length l)%nat ->
  parseTimestamp l = Returns (tm, err) -> err = None.
Proof.
  intros L H. unfold parseTimestamp in H.
  apply Nat.ltb_ge in L. rewrite L in H. unfold and_then in H.
  repeat match type of H with
         | context [match ?c with Returns _ => _ | Panics _ => _ end] =>
             destruct c; try discriminate
         end.
  inversion H; reflexivity.
Qed.

(** X10.  Whenever [parseTimestamp] returns, it returns an error exactly
    when the array has fewer than six elements, and then the instant is the
    zero time; with six elements or more a return carries no error. *)
Theorem parseTimestamp_error_iff_short (l : list JSON) (tm : Time)
  (err : option error) :
  parseTimestamp l = Returns (tm, err) ->
  (err = None <-> (6 <= List.length l)%nat)
  /\ (err <> None -> tm = TimeZero).
Proof.
  intros H. destruct (Nat.ltb_spec (List.length l) 6) as [L|L].
  - rewrite (parseTimestamp_short l L) in H. inversion H; subst.
    split; [|reflexivity]. split; [discriminate|lia].
  - unfold parseTimestamp in H.
    apply Nat.ltb_ge in L. rewrite L in H. apply Nat.ltb_ge in L.
    unfold and_then in H.
    repeat match type of H with
           | context [match ?c with Returns _ => _ | Panics _ => _ end] =>
               destruct c; try discriminate
           end.
    inversion H; subst. split; [tauto|congruence].
Qed.

(** X11.  Elements after the seventh are never looked at: appending to an
    array of seven elements or more changes nothing. *)
Theorem parseTimestamp_ignores_tail (l extra : list JSON) :
  (7 <= List.length l)%nat ->
  parseTimestamp (l ++ extra) = parseTimestamp l.
Proof.
  intros L.
  destruct l as [|a [|b [|c [|d [|e [|f [|g rest]]]]]]]; cbn in L; try lia.
  reflexivity.
Qed.

(** X12.  The nanosecond defaults to zero: an array of exactly six elements
    is parsed as the same array with a seventh element 0. *)
Theorem parseTimestamp_default_nanosecond (l : list JSON) :
  List.length l = 6%nat ->
  parseTimestamp l = parseTimestamp (l ++ [JNumber 0%float]).
Proof.
  intros L.
  destruct l as [|a [|b [|c [|d [|e [|f [|g rest]]]]]]]; cbn in L; try lia.
  reflexivity.
Qed.

Context {S : Type}.

Lemma timestampOrNow_frame (l : list JSON) (warn : string) (w : World S) :
  assertions_hold l = true ->
  exists tm,
    timestampOrNow l warn w
    = (Returns tm,
       if (List.length l <? 6)%nat
       then mkWorld (store w) (logs w ++ [mkLog WARN warn]) (calls w) (wall w)
              (Datatypes.S (ticks w))
       else w).
Proof.
  intros H. unfold timestampOrNow, bind, lift.
  destruct (Nat.ltb_spec (List.length l) 6) as [L|L].
  - rewrite (parseTimestamp_short l L). eexists. reflexivity.
  - destruct (parseTimestamp_returns l H) as (tm & err & E).
    rewrite (parseTimestamp_long_no_error l tm err L E) in E.
    rewrite E. eexists. reflexivity.
Qed.

Lemma timestampOrNow_panics (l : list JSON) (warn : string) (w : World S) :
  assertions_hold l = false ->
  exists v, timestampOrNow l warn w = (Panics v, w).
Proof.
  intros H. unfold timestampOrNow, bind, lift.
  destruct (parseTimestamp_panics l H) as (v & ->). eauto.
Qed.

(** X13.  What the translation touches.  When it returns, the store, the
    recorded repository calls and the clock itself are as before; it has
    read the clock once for each timestamp array that was too short, and
    emitted as many diagnostics, all of them warnings. *)
Theorem kafkaMessageToEntity_frame (msg : KafkaTransactionMessage)
  (w : World S) :
  assertions_hold (CreatedAt msg) = true ->
  assertions_hold (UpdatedAt msg) = true ->
  exists t w',
    kafkaMessageToEntity msg w = (Returns (t, None), w')
    /\ store w' = store w
    /\ calls w' = calls w
    /\ wall w' = wall w
    /\ ticks w' = (ticks w + short_timestamps msg)%nat
    /\ List.length (emitted w w') = short_timestamps msg
    /\ forallb is_warning (emitted w w') = true.
Proof.
  intros Hc Hu. unfold kafkaMessageToEntity, bind, short_timestamps.
  destruct (timestampOrNow_frame (CreatedAt msg)
              "Failed to parse createdAt, using current time" w Hc)
    as (c & ->).
  match goal with
  | |- context [timestampOrNow (UpdatedAt msg) ?warn ?w1] =>
      destruct (timestampOrNow_frame (UpdatedAt msg) warn w1 Hu) as (u & ->)
  end.
  unfold ret, emitted.
  destruct (List.length (CreatedAt msg) <? 6)%nat;
    destruct (List.length (UpdatedAt msg) <? 6)%nat;
    eexists; eexists; (split; [reflexivity|]); cbn [store calls wall ticks logs];
    rewrite <- ?app_assoc, ?skipn_length_app, ?skipn_all; cbn;
    repeat split; lia.
Qed.

End TimestampFacts.

(** A run of X10: the array of the handler test that is too short. *)
Lemma parseTimestamp_error_iff_short_two :
  (Some (ErrNew "invalid timestamp array length: 2") = None
   <-> (6 <= List.length [JNumber 2024%float; JNumber 1%float])%nat)
  /\ (Some (ErrNew "invalid timestamp array length: 2") <> None ->
      TimeZero = TimeZero).
Proof.
  apply (parseTimestamp_error_iff_short
           [JNumber 2024%float; JNumber 1%float] TimeZero
           (Some (ErrNew "invalid timestamp array length: 2"))).
  reflexivity.
Defined.

(** A run of X11: an eighth element. *)
Lemma parseTimestamp_ignores_tail_eighth :
  deliveries.parseTimestamp
    ([JNumber 2024; JNumber 1; JNumber 15; JNumber 10; JNumber 30; JNumber 45;
      JNumber 500000000]%float ++ [JString "ignored"])
  = deliveries.parseTimestamp
      [JNumber 2024; JNumber 1; JNumber 15; JNumber 10; JNumber 30; JNumber 45;
       JNumber 500000000]%float.
Proof.
  apply (parseTimestamp_ignores_tail
           [JNumber 2024; JNumber 1; JNumber 15; JNumber 10; JNumber 30;
            JNumber 45; JNumber 500000000]%float [JString "ignored"]).
  cbn. lia.
Defined.

(** A run of X12: the timestamp of the handler tests. *)
Lemma parseTimestamp_default_nanosecond_test :
  deliveries.parseTimestamp
    [JNumber 2024; JNumber 1; JNumber 15; JNumber 10; JNumber 30; JNumber 45]%float
  = deliveries.parseTimestamp
      ([JNumber 2024; JNumber 1; JNumber 15; JNumber 10; JNumber 30;
        JNumber 45]%float ++ [JNumber 0%float]).
Proof.
  apply (parseTimestamp_default_nanosecond
           [JNumber 2024; JNumber 1; JNumber 15; JNumber 10; JNumber 30;
            JNumber 45]%float).
  reflexivity.
Defined.

(** A run of X13: the message with a [createdAt] that is too short. *)
Lemma kafkaMessageToEntity_frame_blank :
  exists t w',
    deliveries.kafkaMessageToEntity samples.blank_message samples.fresh
    = (Returns (t, None), w')
    /\ store w' = store samples.fresh
    /\ calls w' = calls samples.fresh
    /\ wall w' = wall samples.fresh
    /\ ticks w' = (ticks samples.fresh + short_timestamps samples.blank_message)%nat
    /\ List.length (emitted samples.fresh w')
       = short_timestamps samples.blank_message
    /\ forallb is_warning (emitted samples.fresh w') = true.
Proof.
  apply (kafkaMessageToEntity_frame samples.blank_message samples.fresh);
    reflexivity.
Defined.

(** ** The handler *)

Section HandlerFacts.

Context {S : Type} {transactionRepo : TransactionRepository S}.

Variable json_Unmarshal : string -> deliveries.KafkaTransactionMessage + error.

(** The translation never touches the store or the recorded calls, whether it
    returns or panics. *)
Lemma kafkaMessageToEntity_leaves_repository
  (msg : deliveries.KafkaTransactionMessage) (w : World S) :
  store (snd (deliveries.kafkaMessageToEntity msg w)) = store w
  /\ calls (snd (deliveries.kafkaMessageToEntity msg w)) = calls w
  /\ (assertions_hold (deliveries.CreatedAt msg)
      && assertions_hold (deliveries.UpdatedAt msg) = false ->
      exists v, fst (deliveries.kafkaMessageToEntity msg w) = Panics v).
Proof.
  destruct (assertions_hold (deliveries.CreatedAt msg)) eqn:Hc.
  - destruct (assertions_hold (deliveries.UpdatedAt msg)) eqn:Hu.
    + unfold deliveries.kafkaMessageToEntity, bind.
      destruct (timestampOrNow_frame (deliveries.CreatedAt msg)
                  "Failed to parse createdAt, using current time" w Hc)
        as (c & ->).
      match goal with
      | |- context [deliveries.timestampOrNow (deliveries.UpdatedAt msg) ?warn ?w1] =>
          destruct (timestampOrNow_frame (deliveries.UpdatedAt msg) warn w1 Hu)
            as (u & ->)
      end.
      cbn [fst snd ret].
      destruct (List.length (deliveries.CreatedAt msg) <? 6)%nat;
        destruct (List.length (deliveries.UpdatedAt msg) <? 6)%nat;
        repeat split; auto; discriminate.
    + unfold deliveries.kafkaMessageToEntity, bind.
      destruct (timestampOrNow_frame (deliveries.CreatedAt msg)
                  "Failed to parse createdAt, using current time" w Hc)
        as (c & ->).
      match goal with
      | |- context [deliveries.timestampOrNow (deliveries.UpdatedAt msg) ?warn ?w1] =>
          destruct (timestampOrNow_panics (deliveries.UpdatedAt msg) warn w1 Hu)
            as (v & ->)
      end.
      cbn [fst snd].
      destruct (List.length (deliveries.CreatedAt msg) <? 6)%nat;
        repeat split; eauto.
  - destruct (kafkaMessageToEntity_panics msg w Hc) as (v & ->).
    cbn [fst snd]. repeat split; eauto.
Qed.

(** X14.  The handler composes translation and use case.  For a payload
    that decodes to a message on whose timestamps no type assertion fails,
    the translation, run after the two debug entries, returns a record and
    no error; [ProcessTransaction] is run on that record in the world the
    translation leaves; and [HandleMessage] returns what it returns, nil for
    nil and an error wrapped as "failed to process transaction" for an
    error, in the world it leaves.  The error "failed to convert message to
    entities" is never returned. *)
Theorem HandleMessage_composes (payload : string)
  (msg : deliveries.KafkaTransactionMessage) (w : World S) :
  json_Unmarshal payload = inl msg ->
  assertions_hold (deliveries.CreatedAt msg) = true ->
  assertions_hold (deliveries.UpdatedAt msg) = true ->
  let w0 := snd (emit DEBUG "Unmarshalled message"
                   (snd (emit DEBUG "Received message" w))) in
  exists t w1 t' err w2,
    deliveries.kafkaMessageToEntity msg w0 = (Returns (t, None), w1)
    /\ ProcessTransaction t w1 = (Returns (t', err), w2)
    /\ deliveries.HandleMessage json_Unmarshal payload w
       = (Returns (option_map (ErrWrap "failed to process transaction") err),
          w2).
Proof.
  intros D Hc Hu w0. unfold deliveries.HandleMessage, bind. rewrite D.
  cbv beta iota.
  change (snd (emit DEBUG "Unmarshalled message"
                 (snd (emit DEBUG "Received message" w)))) with w0.
  destruct (kafkaMessageToEntity_returns msg w0 Hc Hu)
    as (c & u & w1 & E & _).
  destruct (ProcessTransaction_returns (deliveries.buildEntity msg c u) w1)
    as (t' & err & w2 & P).
  exists (deliveries.buildEntity msg c u), w1, t', err, w2.
  split; [exact E|]. split; [exact P|].
  unfold emit at 1 2. cbv beta iota. fold w0.
  unfold emit in w0. cbn [snd] in w0. subst w0.
  rewrite E. cbv beta iota. rewrite P. destruct err; reflexivity.
Qed.

(** X15.  A payload that cannot be translated never reaches the repository.
    When the payload does not decode, or decodes to a message with a failing
    type assertion on a timestamp, [HandleMessage] invokes no repository
    method and leaves the store as it was; it ends with an error or with a
    panic, never with nil. *)
Theorem HandleMessage_untranslatable (payload : string) (w : World S) :
  translatable json_Unmarshal payload = false ->
  store (snd (deliveries.HandleMessage json_Unmarshal payload w)) = store w
  /\ made w (snd (deliveries.HandleMessage json_Unmarshal payload w)) = []
  /\ fst (deliveries.HandleMessage json_Unmarshal payload w) <> Returns None.
Proof.
  unfold translatable, deliveries.HandleMessage, bind, emit.
  destruct (json_Unmarshal payload) as [msg|e]; intros T; cbv beta iota.
  - match goal with
    | |- context [deliveries.kafkaMessageToEntity msg ?w0] =>
        destruct (kafkaMessageToEntity_leaves_repository msg w0)
          as (Hs & Hk & Hp);
        destruct (Hp T) as (v & Hv);
        destruct (deliveries.kafkaMessageToEntity msg w0) as [r w1]
    end.
    cbn [fst snd store calls] in Hs, Hk, Hv. subst r. cbn [fst snd].
    unfold made. rewrite Hs, Hk. rewrite skipn_all.
    repeat split; auto. discriminate.
  - unfold ret, made. cbn [fst snd store calls]. rewrite skipn_all.
    repeat split; auto. discriminate.
Qed.

End HandlerFacts.

(** A run of X14: the valid top-up through the handler. *)
Lemma HandleMessage_composes_topup :
  exists t w1 t' err w2,
    deliveries.kafkaMessageToEntity samples.topup_message
      (snd (emit DEBUG "Unmarshalled message"
              (snd (emit DEBUG "Received message" samples.fresh))))
    = (Returns (t, None), w1)
    /\ ProcessTransaction t w1 = (Returns (t', err), w2)
    /\ deliveries.HandleMessage samples.decode "topup trans-456" samples.fresh
       = (Returns (option_map (ErrWrap "failed to process transaction") err),
          w2).
Proof.
  apply (HandleMessage_composes samples.decode "topup trans-456"
           samples.topup_message samples.fresh); reflexivity.
Defined.

(** A run of X15: a payload that does not decode. *)
Lemma HandleMessage_untranslatable_malformed :
  store (snd (deliveries.HandleMessage samples.decode "{invalid: json}"
                samples.fresh)) = store samples.fresh
  /\ made samples.fresh
       (snd (deliveries.HandleMessage samples.decode "{invalid: json}"
               samples.fresh)) = []
  /\ fst (deliveries.HandleMessage samples.decode "{invalid: json}"
            samples.fresh) <> Returns None.
Proof.
  apply (HandleMessage_untranslatable samples.decode "{invalid: json}"
           samples.fresh).
  reflexivity.
Defined.

(** ** The loop: what ends it and what it leaves *)

Section LoopFacts.

Import consumer.

Context {S : Type}.

Lemma no_cancellation_exit (script : list Iteration) :
  no_cancellation script = true ->
  exit_of script = Fetching /\ delivered script = messages script.
Proof.
  unfold no_cancellation, messages.
  induction script as [|it rest IH]; [auto|].
  cbn [forallb flat_map]. intros H.
  apply andb_true_iff in H. destruct H as [H1 H2].
  destruct (IH H2) as [X E]. clear IH H2. revert H1.
  destruct it as [cause|err|m cerr]; intros H1; try discriminate;
    cbn [exit_of delivered].
  - apply negb_true_iff in H1. rewrite H1. cbn. auto.
  - rewrite E. auto.
Qed.

(** X16.  Only a cancellation ends the loop.  With a handler that always
    returns, and a script without cancellation, [Consume] is still fetching
    when the script is used up, whatever errors the handler, the fetches and
    the commits produced; and every message of the script has been
    committed, in order. *)
Theorem Consume_isolates_failures (handler : @MessageHandler S)
  (script : list Iteration) (w : World S) :
  (forall v w0, exists herr w', handler v w0 = (Returns herr, w')) ->
  no_cancellation script = true ->
  fst (fst (Consume handler script w)) = Fetching
  /\ committed (snd (fst (Consume handler script w))) = messages script
  /\ fetched (snd (fst (Consume handler script w))) = messages script.
Proof.
  intros Hret N. destruct (no_cancellation_exit script N) as [E D].
  unfold Consume.
  pose proof (loop_exit handler script Hret
                (logged INFO "Starting Kafka consumer" w)) as X.
  pose proof (loop_commits_delivered handler script Hret
                (logged INFO "Starting Kafka consumer" w)) as C.
  pose proof (loop_acknowledges handler script
                (logged INFO "Starting Kafka consumer" w)) as A.
  cbv zeta in A. destruct A as (_ & A1 & A2).
  rewrite X, C, E, D. repeat split.
  assert (R : handled_to_return
                (snd (fst (loop handler script
                             (logged INFO "Starting Kafka consumer" w))))
              = handled
                  (snd (fst (loop handler script
                               (logged INFO "Starting Kafka consumer" w))))).
  { clear - Hret.
    generalize (logged INFO "Starting Kafka consumer" w).
    induction script as [|it rest IH]; intros w0; auto.
    destruct it as [cause|err|m cerr]; cbn [loop]; auto.
    - destruct (errors_Is err ErrCanceled); auto.
      specialize (IH (logged ERROR "Failed to fetch message" w0)).
      destruct (loop handler rest (logged ERROR "Failed to fetch message" w0))
        as [[r evs] w2]. exact IH.
    - destruct (Hret (Value m) w0) as (herr & w1 & ->).
      match goal with
      | |- context [loop handler rest ?w3] =>
          specialize (IH w3); destruct (loop handler rest w3) as [[r evs] w4]
      end.
      cbn in IH |- *. congruence. }
  rewrite <- A2, <- R, <- A1, C. exact D.
Qed.

End LoopFacts.

(** ** The loop and the handler together *)

Section PipelineFacts.

Context {S : Type} {transactionRepo : TransactionRepository S}.

Variable json_Unmarshal : string -> deliveries.KafkaTransactionMessage + error.

(** On a poison message the handler panics. *)
Lemma HandleMessage_poison (m : consumer.Message) (w : World S) :
  poison json_Unmarshal m = true ->
  exists v w',
    deliveries.HandleMessage json_Unmarshal (consumer.Value m) w
    = (Panics v, w').
Proof.
  unfold poison, deliveries.HandleMessage, bind, emit.
  destruct (json_Unmarshal (consumer.Value m)) as [msg|e]; [|discriminate].
  intros T. apply negb_true_iff in T. cbv beta iota.
  match goal with
  | |- context [deliveries.kafkaMessageToEntity msg ?w0] =>
      destruct (kafkaMessageToEntity_leaves_repository msg w0)
        as (_ & _ & Hp);
      destruct (Hp T) as (v & Hv);
      destruct (deliveries.kafkaMessageToEntity msg w0) as [r w1]
  end.
  cbn [fst] in Hv. subst r. eauto.
Qed.

(** On any other message it returns. *)
Lemma HandleMessage_wholesome (m : consumer.Message) (w : World S) :
  poison json_Unmarshal m = false ->
  exists herr w',
    deliveries.HandleMessage json_Unmarshal (consumer.Value m) w
    = (Returns herr, w').
Proof.
  intros T. apply HandleMessage_returns. intros msg D.
  unfold poison in T. rewrite D in T. apply negb_false_iff in T.
  apply andb_true_iff in T. exact T.
Qed.

(** X23.  A message whose payload decodes but fails a type assertion on a
    timestamp stops the consumer.  With [HandleMessage] as the handler,
    [Consume] ends in a panic at the first such message delivered: the
    messages before it are fetched and committed, whatever their outcome,
    and it is fetched and not committed.  When no such message is delivered,
    every message delivered is fetched and committed, and the run ends as
    the outside has it: on a cancellation, or waiting for the next
    message. *)
Theorem Consume_stops_at_poison_message
  (script : list consumer.Iteration) (w : World S) :
  let run := consumer.Consume (deliveries.HandleMessage json_Unmarshal)
               script w in
  match upto_poison json_Unmarshal (delivered script) with
  | (before, Some m) =>
      (exists v, fst (fst run) = consumer.Exited (Panics v))
      /\ fetched (snd (fst run)) = (before ++ [m])%list
      /\ committed (snd (fst run)) = before
  | (_, None) =>
      fst (fst run) = exit_of script
      /\ fetched (snd (fst run)) = delivered script
      /\ committed (snd (fst run)) = delivered script
  end.
Proof.
  cbv zeta. unfold consumer.Consume.
  generalize (consumer.logged INFO "Starting Kafka consumer" w).
  induction script as [|it rest IH]; intros w0; [repeat split|].
  destruct it as [cause|err|m cerr];
    cbn [consumer.loop delivered exit_of upto_poison].
  - repeat split.
  - destruct (errors_Is err ErrCanceled); [repeat split|].
    specialize (IH (consumer.logged ERROR "Failed to fetch message" w0)).
    destruct (consumer.loop (deliveries.HandleMessage json_Unmarshal) rest
                (consumer.logged ERROR "Failed to fetch message" w0))
      as [[r evs] w2]. exact IH.
  - destruct (poison json_Unmarshal m) eqn:T.
    + destruct (HandleMessage_poison m w0 T) as (v & w1 & ->).
      cbn. repeat split. eauto.
    + destruct (HandleMessage_wholesome m w0 T) as (herr & w1 & ->).
      match goal with
      | |- context [consumer.loop _ rest ?w3] =>
          specialize (IH w3);
          destruct (consumer.loop (deliveries.HandleMessage json_Unmarshal)
                      rest w3) as [[r evs] w4]
      end.
      cbn [fst snd] in IH |- *.
      destruct (upto_poison json_Unmarshal (delivered rest)) as [before [p|]];
        cbn in IH |- *; destruct IH as (X & F & C);
        repeat split; try f_equal; assumption.
Qed.
End PipelineFacts.

(** A run of X16: the handler that fails on every message. *)
Lemma Consume_isolates_failures_failing :
  fst (fst (consumer.Consume samples.failing_handler
              [consumer.FetchOk samples.m1 None;
               consumer.FetchFails ErrConnDone;
               consumer.FetchOk samples.m2 (Some ErrConnDone)] samples.fresh))
  = consumer.Fetching
  /\ committed
       (snd (fst (consumer.Consume samples.failing_handler
                    [consumer.FetchOk samples.m1 None;
                     consumer.FetchFails ErrConnDone;
                     consumer.FetchOk samples.m2 (Some ErrConnDone)]
                    samples.fresh)))
     = messages
         [consumer.FetchOk samples.m1 None;
          consumer.FetchFails ErrConnDone;
          consumer.FetchOk samples.m2 (Some ErrConnDone)]
  /\ fetched
       (snd (fst (consumer.Consume samples.failing_handler
                    [consumer.FetchOk samples.m1 None;
                     consumer.FetchFails ErrConnDone;
                     consumer.FetchOk samples.m2 (Some ErrConnDone)]
                    samples.fresh)))
     = messages
         [consumer.FetchOk samples.m1 None;
          consumer.FetchFails ErrConnDone;
          consumer.FetchOk samples.m2 (Some ErrConnDone)].
Proof.
  apply (Consume_isolates_failures samples.failing_handler
           [consumer.FetchOk samples.m1 None;
            consumer.FetchFails ErrConnDone;
            consumer.FetchOk samples.m2 (Some ErrConnDone)] samples.fresh).
  - intros v w0. eexists. eexists. reflexivity.
  - reflexivity.
Defined.

(** ** Configuration *)

Section ConfigFacts.

Import config.

Context {strings : Strings}.

Lemma trimBrokers_ok (brokers : list string) :
  forall i,
    snd (trimBrokers i brokers) = None
    <-> Forall (fun b => strings_TrimSpace b <> "") brokers.
Proof.
  induction brokers as [|b rest IH]; intros i; cbn.
  - split; auto.
  - destruct (strings_TrimSpace b =? "")%string eqn:E.
    + apply String.eqb_eq in E. cbn. split; [discriminate|].
      intros F. inversion F; subst. contradiction.
    + apply String.eqb_neq in E. specialize (IH (Datatypes.S i)).
      destruct (trimBrokers (Datatypes.S i) rest) as [rest' err]. cbn in *.
      rewrite IH. split.
      * intros F. constructor; auto.
      * intros F. inversion F; auto.
Qed.

Lemma trimBrokers_trims (brokers : list string) :
  forall i,
    snd (trimBrokers i brokers) = None ->
    fst (trimBrokers i brokers) = map strings_TrimSpace brokers.
Proof.
  induction brokers as [|b rest IH]; intros i; cbn; auto.
  destruct (strings_TrimSpace b =? "")%string; [discriminate|].
  specialize (IH (Datatypes.S i)).
  destruct (trimBrokers (Datatypes.S i) rest) as [rest' err]. cbn in *.
  intros H. rewrite (IH H). reflexivity.
Qed.

Lemma trimBrokers_pointwise (brokers : list string) :
  forall i,
    List.length (fst (trimBrokers i brokers)) = List.length brokers
    /\ forall k,
         nth k (fst (trimBrokers i brokers)) "" = nth k brokers ""
         \/ nth k (fst (trimBrokers i brokers)) ""
            = strings_TrimSpace (nth k brokers "").
Proof.
  induction brokers as [|b rest IH]; intros i; cbn.
  - split; auto.
  - destruct (strings_TrimSpace b =? "")%string.
    + cbn. split; auto. intros [|k]; auto.
    + specialize (IH (Datatypes.S i)).
      destruct (trimBrokers (Datatypes.S i) rest) as [rest' err]. cbn in *.
      destruct IH as [L N]. split; [congruence|]. intros [|k]; auto.
Qed.

(** The checks of [Validate], in its order. *)
Lemma Validate_checks (c : Config) :
  snd (Validate c)
  = None
  <-> Brokers (Kafka c) <> []
      /\ Forall (fun b => strings_TrimSpace b <> "") (Brokers (Kafka c))
      /\ 1 <= Port (Database c) <= 65535
      /\ contains validSSLModes (SSLMode (Database c)) = true
      /\ contains validLogLevels (strings_ToLower (LogLevel (App c))) = true.
Proof.
  unfold config.Validate.
  destruct (Brokers (Kafka c)) as [|b rest] eqn:B.
  { cbn. split; [discriminate|]. intros [H _]. congruence. }
  cbn [List.length Nat.eqb].
  pose proof (trimBrokers_ok (b :: rest) 0%nat) as OK.
  destruct (trimBrokers 0 (b :: rest)) as [brokers [e|]]; cbn [fst snd] in *.
  { split; [discriminate|]. intros (_ & F & _). apply OK in F. discriminate. }
  cbn [Database App with_Brokers].
  assert (F : Forall (fun b0 => strings_TrimSpace b0 <> "") (b :: rest))
    by (apply OK; reflexivity).
  destruct (Port (Database c) <=? 0) eqn:P1; cbn [orb].
  { apply Z.leb_le in P1. split; [discriminate|].
    intros (_ & _ & P & _). lia. }
  destruct (65535 <? Port (Database c)) eqn:P2.
  { apply Z.ltb_lt in P2. split; [discriminate|].
    intros (_ & _ & P & _). lia. }
  apply Z.leb_gt in P1. apply Z.ltb_ge in P2.
  destruct (contains validSSLModes (SSLMode (Database c))) eqn:S1; cbn [negb].
  2:{ split; [discriminate|]. intros (_ & _ & _ & H & _). discriminate. }
  destruct (contains validLogLevels (strings_ToLower (LogLevel (App c))))
    eqn:S2; cbn [negb].
  2:{ split; [discriminate|]. intros (_ & _ & _ & _ & H). discriminate. }
  cbn [snd]. split; [|reflexivity].
  intros _. repeat split; auto; try lia. discriminate.
Qed.

(** What an accepted configuration is left as. *)
Lemma Validate_result (c : Config) :
  snd (Validate c) = None ->
  fst (Validate c) = with_Brokers c (map strings_TrimSpace (Brokers (Kafka c))).
Proof.
  unfold config.Validate.
  destruct (List.length (Brokers (Kafka c)) =? 0)%nat; [discriminate|].
  pose proof (trimBrokers_trims (Brokers (Kafka c)) 0%nat) as TR.
  destruct (trimBrokers 0 (Brokers (Kafka c))) as [brokers [e|]];
    cbn [fst snd] in *; [discriminate|].
  rewrite (TR eq_refl).
  repeat match goal with
         | |- context [if ?b then _ else _] => destruct b
         end; cbn [fst snd]; try discriminate. reflexivity.
Qed.

(** X19.  What [Validate] accepts.  It returns nil exactly when there is at
    least one broker, no broker is blank once trimmed, the database port
    lies in 1..65535, the SSL mode is one of the six modes and the log level,
    lower-cased, one of the five levels, both compared case-insensitively;
    and then it leaves the configuration with every broker trimmed. *)
Theorem Validate_accepts_iff (c : Config) :
  (snd (Validate c) = None
   <-> Brokers (Kafka c) <> []
       /\ Forall (fun b => strings_TrimSpace b <> "") (Brokers (Kafka c))
       /\ 1 <= Port (Database c) <= 65535
       /\ contains validSSLModes (SSLMode (Database c)) = true
       /\ contains validLogLevels (strings_ToLower (LogLevel (App c))) = true)
  /\ (snd (Validate c) = None ->
      fst (Validate c)
      = with_Brokers c (map strings_TrimSpace (Brokers (Kafka c)))).
Proof.
  split.
  - apply Validate_checks.
  - apply Validate_result.
Qed.

(** X20.  [Validate] is idempotent where trimming is: validating again a
    configuration that was accepted accepts it and changes nothing. *)
Theorem Validate_idempotent (c : Config) :
  (forall s, strings_TrimSpace (strings_TrimSpace s) = strings_TrimSpace s) ->
  snd (Validate c) = None ->
  Validate (fst (Validate c)) = (fst (Validate c), None).
Proof.
  intros Idem H.
  rewrite (Validate_result c H).
  set (c' := with_Brokers c (map strings_TrimSpace (Brokers (Kafka c)))).
  apply Validate_checks in H. destruct H as (B & F & P & S1 & S2).
  assert (H' : snd (Validate c') = None).
  { apply Validate_checks. subst c'.
    cbn [with_Brokers Kafka Brokers Database App].
    repeat split; auto; try lia.
    - destruct (Brokers (Kafka c)); [congruence|discriminate].
    - apply Forall_forall. intros x Hx. apply in_map_iff in Hx.
      destruct Hx as (y & <- & Hy). rewrite Idem.
      rewrite Forall_forall in F. auto. }
  pose proof (Validate_result c' H') as R.
  destruct (Validate c') as [c'' err]. cbn [fst snd] in *. subst err.
  rewrite R. subst c'. unfold with_Brokers.
  cbn [Kafka Brokers Topic GroupID CommitInterval MaxBytes Database App].
  rewrite map_map. f_equal. f_equal. f_equal.
  apply map_ext. intros s. apply Idem.
Qed.

(** X21.  What [Validate] may change.  Accepted or refused, the
    configuration it leaves has the database and application settings, the
    topic, group and Kafka parameters it was given, and as many brokers, each
    either as given or trimmed: the SSL mode and the log level are checked
    without regard to case but never normalised. *)
Theorem Validate_frame (c : Config) :
  Database (fst (Validate c)) = Database c
  /\ App (fst (Validate c)) = App c
  /\ Topic (Kafka (fst (Validate c))) = Topic (Kafka c)
  /\ GroupID (Kafka (fst (Validate c))) = GroupID (Kafka c)
  /\ CommitInterval (Kafka (fst (Validate c))) = CommitInterval (Kafka c)
  /\ MaxBytes (Kafka (fst (Validate c))) = MaxBytes (Kafka c)
  /\ List.length (Brokers (Kafka (fst (Validate c))))
     = List.length (Brokers (Kafka c))
  /\ forall k,
       nth k (Brokers (Kafka (fst (Validate c)))) ""
       = nth k (Brokers (Kafka c)) ""
       \/ nth k (Brokers (Kafka (fst (Validate c)))) ""
          = strings_TrimSpace (nth k (Brokers (Kafka c)) "").
Proof.
  unfold config.Validate.
  destruct (List.length (Brokers (Kafka c)) =? 0)%nat.
  { cbn. repeat split; auto. }
  destruct (trimBrokers_pointwise (Brokers (Kafka c)) 0%nat) as [L N].
  destruct (trimBrokers 0 (Brokers (Kafka c))) as [brokers err].
  cbn [fst] in L, N.
  assert (K : forall e : option error,
            let r := (with_Brokers c brokers, e) in
            Database (fst r) = Database c
            /\ App (fst r) = App c
            /\ Topic (Kafka (fst r)) = Topic (Kafka c)
            /\ GroupID (Kafka (fst r)) = GroupID (Kafka c)
            /\ CommitInterval (Kafka (fst r)) = CommitInterval (Kafka c)
            /\ MaxBytes (Kafka (fst r)) = MaxBytes (Kafka c)
            /\ List.length (Brokers (Kafka (fst r)))
               = List.length (Brokers (Kafka c))
            /\ forall k,
                 nth k (Brokers (Kafka (fst r))) ""
                 = nth k (Brokers (Kafka c)) ""
                 \/ nth k (Brokers (Kafka (fst r))) ""
                    = strings_TrimSpace (nth k (Brokers (Kafka c)) "")).
  { intros e. cbn. repeat split; auto. }
  destruct err as [e|]; [apply K|].
  repeat match goal with
         | |- context [if ?b then _ else _] => destruct b
         end; apply K.
Qed.

(** X22.  A configuration is never both: [IsDevelopment] and [IsProduction]
    do not hold together, whatever the environment is called and however
    [ToLower] folds it. *)
Theorem not_development_and_production (c : Config) :
  IsDevelopment c
  && IsProduction c = false.
Proof.
  unfold config.IsDevelopment, config.IsProduction.
  destruct (strings_ToLower (Environment (App c)) =? "development")%string
    eqn:D; [|reflexivity].
  apply String.eqb_eq in D. rewrite D. reflexivity.
Qed.

End ConfigFacts.

(** The connection string [NewConnection] opens is the one [GetDSN] gives
    for the same database settings. *)
Lemma NewConnection_dsn_is_GetDSN (c : config.Config) :
  connection.dsn (config.Database c) = config.GetDSN c.
Proof. reflexivity. Qed.

(** A run of X20: the sample deployment. *)
Lemma Validate_idempotent_deployed :
  @config.Validate deployment.ascii
    (fst (@config.Validate deployment.ascii deployment.deployed))
  = (fst (@config.Validate deployment.ascii deployment.deployed), None).
Proof.
  apply (@Validate_idempotent deployment.ascii deployment.deployed).
  - intros s. cbn [config.strings_TrimSpace deployment.ascii].
    unfold deployment.TrimSpace.
    assert (L : forall t, deployment.trimLeft (deployment.trimLeft t)
                          = deployment.trimLeft t).
    { induction t as [|c t IH]; cbn; auto.
      destruct (Ascii.eqb c Ascii.Space) eqn:E; auto. cbn. rewrite E. auto. }
    assert (R : forall t, deployment.trimRight (deployment.trimRight t)
                          = deployment.trimRight t).
    { induction t as [|c t IH]; cbn; auto.
      destruct (Ascii.eqb c Ascii.Space && (deployment.trimRight t =? "")%string)
        eqn:E; auto.
      cbn. rewrite IH, E. reflexivity. }
    assert (LR : forall t, deployment.trimLeft (deployment.trimRight t)
                           = deployment.trimRight (deployment.trimLeft t)).
    { induction t as [|c t IH]; cbn; auto.
      destruct (Ascii.eqb c Ascii.Space) eqn:E; cbn.
      - destruct (deployment.trimRight t =? "")%string eqn:Z; cbn.
        + apply String.eqb_eq in Z. rewrite <- IH, Z. reflexivity.
        + rewrite E. exact IH.
      - rewrite E. cbn. reflexivity. }
    rewrite <- (LR (deployment.trimRight (deployment.trimLeft s))), R, LR, L.
    reflexivity.
  - reflexivity.
Defined.
